(** * Pocket-AI-Chat: the credential vault (utils/auth.py, ui/auth_components.py)

    A shallow embedding of [AuthManager] (the SQLite-backed store of one
    API key and its PIN) and of [AuthWindow.handle_submit] (the login form
    handler built on it), with the properties of the specification that
    concern them; then of the code around them: the rest of the window,
    the start-up and reset paths of main.py, the alerts of
    utils/notifications.py and the sampling, health and balance checks of
    utils/monitor.py.

    Conventions.
    - A Python [str] is a list of Unicode code points ([text]).
    - A Python [int] is a [Z]; a Python [float] is a binary64 [float].
    - Python code that can raise runs in the monad [M]: a computation takes
      the [world] and returns either a value or a raised exception, with the
      world it leaves behind. *)

From Stdlib Require Import ZArith NArith List Bool String Ascii Lia.
From Stdlib Require Decimal DecimalString.
From Stdlib Require Import PrimFloat.
Import ListNotations.
Open Scope Z_scope.

(** ** Python values *)

Definition char := N.
Definition text := list char.

(** [text_of] reads an ASCII literal as a Python string. *)
Definition text_of (s : string) : text :=
  map N_of_ascii (list_ascii_of_string s).

Definition text_eqb (a b : text) : bool :=
  if list_eq_dec N.eq_dec a b then true else false.

Inductive exn :=
| Exception (msg : string)       (* Exception and its subclasses *)
| BaseException (msg : string).  (* what [except Exception] lets through *)

Module Py.

(** [str.isspace] on one code point: the table of [_PyUnicode_IsWhitespace]. *)
Definition isspace (c : char) : bool :=
  (((9 <=? c) && (c <=? 13)) || ((28 <=? c) && (c <=? 32))
   || (c =? 133) || (c =? 160) || (c =? 5760)
   || ((8192 <=? c) && (c <=? 8202))
   || (c =? 8232) || (c =? 8233) || (c =? 8239) || (c =? 8287)
   || (c =? 12288))%N.

Fixpoint lstrip (s : text) : text :=
  match s with
  | c :: r => if isspace c then lstrip r else s
  | [] => []
  end.

Definition rstrip (s : text) : text := rev (lstrip (rev s)).

(** [s.strip()] *)
Definition strip (s : text) : text := rstrip (lstrip s).

Definition digit (d : N) : char := (48 + d)%N.

Fixpoint str_uint (u : Decimal.uint) : text :=
  match u with
  | Decimal.Nil => []
  | Decimal.D0 r => digit 0 :: str_uint r
  | Decimal.D1 r => digit 1 :: str_uint r
  | Decimal.D2 r => digit 2 :: str_uint r
  | Decimal.D3 r => digit 3 :: str_uint r
  | Decimal.D4 r => digit 4 :: str_uint r
  | Decimal.D5 r => digit 5 :: str_uint r
  | Decimal.D6 r => digit 6 :: str_uint r
  | Decimal.D7 r => digit 7 :: str_uint r
  | Decimal.D8 r => digit 8 :: str_uint r
  | Decimal.D9 r => digit 9 :: str_uint r
  end.

(** [str(n)] for an int: decimal digits, a minus sign when negative. *)
Definition str (n : Z) : text :=
  match Z.to_int n with
  | Decimal.Pos u => str_uint u
  | Decimal.Neg u => 45%N :: str_uint u
  end.

(** [s.zfill(width)]: zeros on the left up to [width], after a leading
    sign when there is one. *)
Definition zfill (width : Z) (s : text) : text :=
  if width <=? Z.of_nat (List.length s) then s
  else
    let fill := repeat (digit 0) (Z.to_nat (width - Z.of_nat (List.length s))) in
    match s with
    | c :: r => if ((c =? 43) || (c =? 45))%N then c :: (fill ++ r)%list else (fill ++ s)%list
    | [] => fill
    end.

Definition isdigit (c : char) : bool := ((48 <=? c) && (c <=? 57))%N.

(** The value of a string of decimal digits, as [int(s)] reads it. *)
Definition int_of_digits (s : text) : Z :=
  fold_left (fun acc c => 10 * acc + (Z.of_N c - 48)) s 0.

(** *** Encoding a [str] as UTF-8

    A [str] may hold surrogate code points (U+D800 to U+DFFF), which have
    no UTF-8 encoding: [s.encode('utf-8')] then raises UnicodeEncodeError. *)
Definition is_surrogate (c : char) : bool := ((55296 <=? c) && (c <=? 57343))%N.

(** The number of bytes of the encoding of one code point, and of a string. *)
Definition utf8_width (c : char) : Z :=
  if (c <? 128)%N then 1
  else if (c <? 2048)%N then 2
  else if (c <? 65536)%N then 3
  else 4.

Definition utf8_length (s : text) : Z :=
  fold_right (fun c n => utf8_width c + n) 0 s.

(** How many surrogates the string starts with. *)
Fixpoint surrogate_run (s : text) : nat :=
  match s with
  | c :: r => if is_surrogate c then S (surrogate_run r) else O
  | [] => O
  end.

(** The first surrogate of the string: its position, itself, and how
    many surrogates follow it directly. *)
Fixpoint find_surrogate (pos : nat) (s : text) : option (nat * char * nat) :=
  match s with
  | [] => None
  | c :: r =>
      if is_surrogate c then Some (pos, c, surrogate_run r)
      else find_surrogate (S pos) r
  end.

Definition decimal (n : nat) : string :=
  DecimalString.NilZero.string_of_uint (Nat.to_uint n).

Definition hex_digit (d : N) : string :=
  String.substring (N.to_nat d) 1 "0123456789abcdef".

(** The four hexadecimal digits of a code point below 65536. *)
Definition hex4 (c : char) : string :=
  (hex_digit (c / 4096)%N ++ hex_digit ((c / 256) mod 16)%N
   ++ hex_digit ((c / 16) mod 16)%N ++ hex_digit (c mod 16)%N)%string.

(** [str(e)] for the UnicodeEncodeError of [s.encode('utf-8')], if it
    raises one. *)
Definition encode_error (s : text) : option string :=
  match find_surrogate 0 s with
  | None => None
  | Some (i, c, O) =>
      Some ("'utf-8' codec can't encode character '\u" ++ hex4 c
            ++ "' in position " ++ decimal i ++ ": surrogates not allowed")%string
  | Some (i, _, S more) =>
      Some ("'utf-8' codec can't encode characters in position " ++ decimal i
            ++ "-" ++ decimal (i + S more) ++ ": surrogates not allowed")%string
  end.

End Py.

(** ** The database file [auth_data.db] *)

Module Db.

Definition timestamp := nat.

(** One row of
    [auth (id INTEGER PRIMARY KEY AUTOINCREMENT, api_key TEXT NOT NULL,
           pin_code TEXT NOT NULL, created_at TIMESTAMP DEFAULT CURRENT_TIMESTAMP)]. *)
Record row := mkRow {
  id : Z;
  api_key : text;
  pin_code : text;
  created_at : timestamp
}.

(** The table [auth] with its entry of [sqlite_sequence]: [seq] is the
    largest id the table ever gave out; DELETE does not lower it. *)
Record table := mkTable {
  rows : list row;
  seq : Z
}.

(** The file either has the table [auth] or does not have it yet. *)
Definition db := option table.

Definition records (d : db) : list row :=
  match d with
  | Some t => rows t
  | None => []
  end.

Definition max_rowid : Z := 9223372036854775807.

(** SQLITE_MAX_LENGTH, the default of the limit on the bytes of a string
    and of a row. *)
Definition max_length : Z := 1000000000.

(** The bytes of a variable-length integer of the record format. *)
Definition varint_size (v : Z) : Z :=
  if v <? 128 then 1
  else if v <? 16384 then 2
  else if v <? 2097152 then 3
  else if v <? 268435456 then 4
  else if v <? 34359738368 then 5
  else 9.

(** The bytes of the record INSERT makes for a row: the header (its own
    length, a NULL for [id], which is the rowid, the types of the two
    texts and of the 19 characters of CURRENT_TIMESTAMP), then the two
    texts in UTF-8 and the time stamp. *)
Definition record_size (k p : text) : Z :=
  let n1 := Py.utf8_length k in
  let n2 := Py.utf8_length p in
  (1 + 1 + varint_size (2 * n1 + 13) + varint_size (2 * n2 + 13) + 1)
  + (n1 + n2 + 19).

Definition largest_id (rs : list row) : Z :=
  fold_right (fun r m => Z.max (id r) m) 0 rs.

(** [INSERT INTO auth (api_key, pin_code) VALUES (?, ?)]: the id is one
    more than the largest ever used, [created_at] is the current time;
    [None] when the ids are used up (SQLITE_FULL). *)
Definition insert (now : timestamp) (k p : text) (t : table) : option table :=
  let top := Z.max (seq t) (largest_id (rows t)) in
  if max_rowid <=? top then None
  else Some (mkTable (rows t ++ [mkRow (top + 1) k p now]) (top + 1)).

(** [DELETE FROM auth] *)
Definition delete_all (t : table) : table := mkTable [] (seq t).

(** The first row of [ORDER BY id DESC]. *)
Fixpoint latest (rs : list row) : option row :=
  match rs with
  | [] => None
  | r :: rest =>
      match latest rest with
      | Some r' => if id r <? id r' then Some r' else Some r
      | None => Some r
      end
  end.

(** [SELECT api_key, pin_code FROM auth ORDER BY id DESC LIMIT 1] *)
Definition select_latest (t : table) : list (text * text) :=
  match latest (rows t) with
  | Some r => [(api_key r, pin_code r)]
  | None => []
  end.

(** [CREATE TABLE IF NOT EXISTS auth (...)] *)
Definition create_if_not_exists (d : db) : db :=
  match d with
  | Some t => Some t
  | None => Some (mkTable [] 0)
  end.

End Db.

(** ** The world and the monad of Python code *)

(** What [status_text.value] can hold.  The texts are the source's:
    - [NoStatus]: the empty text the window starts with;
    - [EnterKeyOrPin]: "Введите API ключ или PIN";
    - [InvalidPin]: "Неверный PIN код";
    - [EnterKeyFirstLogin]: "Введите API ключ для первого входа";
    - [PinGenerated p]: "PIN код сгенерирован: " followed by [p];
    - [SaveError]: "Ошибка сохранения данных";
    - [InvalidApiKey e]: "Неверный API ключ: " followed by [str(ex)]. *)
Inductive status :=
| NoStatus
| EnterKeyOrPin
| InvalidPin
| EnterKeyFirstLogin
| PinGenerated (pin_code : text)
| SaveError
| InvalidApiKey (ex : string).

Inductive color := RED_400 | GREEN_400.

(** The fields of [AuthWindow] that [handle_submit] reads and writes. *)
Record window := mkWindow {
  api_key_input : text;      (* api_key_input.value *)
  pin_input : text;          (* pin_input.value *)
  status_text : status;      (* status_text.value *)
  status_color : color       (* status_text.color *)
}.

(** The fields of [ChatApp] (main.py) that authentication sets. *)
Record chat_app := mkChatApp {
  is_authenticated : bool;
  api_client : option text   (* the key given to OpenRouterClient *)
}.

(** What the four methods of [AuthManager] write to the log. *)
Inductive log_entry :=
| InitError (e : string)    (* "Ошибка инициализации БД аутентификации: {e}" *)
| SaveFailed (e : string)   (* "Ошибка сохранения учетных данных: {e}" *)
| GetFailed (e : string)    (* "Ошибка получения учетных данных: {e}" *)
| ClearFailed (e : string). (* "Ошибка очистки учетных данных: {e}" *)

(** The world.
    - [disk]: the committed content of the database file.
    - [faults]: the schedule of storage errors; each call of the [sqlite3]
      API takes the head: [Some msg] makes the call raise [sqlite3.Error]
      with that message (locked or unreadable file, a value that cannot be
      bound, ...), [None] lets it run; past the end of the schedule no call
      fails.
    - [clock]: what CURRENT_TIMESTAMP reads.
    - [entropy], [drawn]: the system's random source and how many draws
      were taken from it. *)
Record world := mkWorld {
  disk : Db.db;
  faults : list (option string);
  clock : Db.timestamp;
  entropy : nat -> Z;
  drawn : nat;
  log : list log_entry;
  form : window;
  app : chat_app
}.

Definition set_disk (d : Db.db) (w : world) : world :=
  mkWorld d (faults w) (clock w) (entropy w) (drawn w) (log w) (form w) (app w).
Definition set_faults (f : list (option string)) (w : world) : world :=
  mkWorld (disk w) f (clock w) (entropy w) (drawn w) (log w) (form w) (app w).
Definition set_drawn (n : nat) (w : world) : world :=
  mkWorld (disk w) (faults w) (clock w) (entropy w) n (log w) (form w) (app w).
Definition set_log (l : list log_entry) (w : world) : world :=
  mkWorld (disk w) (faults w) (clock w) (entropy w) (drawn w) l (form w) (app w).
Definition set_form (f : window) (w : world) : world :=
  mkWorld (disk w) (faults w) (clock w) (entropy w) (drawn w) (log w) f (app w).
Definition set_app (a : chat_app) (w : world) : world :=
  mkWorld (disk w) (faults w) (clock w) (entropy w) (drawn w) (log w) (form w) a.

Inductive result (A : Type) :=
| Ok (a : A)
| Raise (e : exn).
Arguments Ok {A} a.
Arguments Raise {A} e.

Definition M (A : Type) : Type := world -> result A * world.

Definition ret {A} (a : A) : M A := fun w => (Ok a, w).

Definition raise {A} (e : exn) : M A := fun w => (Raise e, w).

Definition bind {A B} (c : M A) (k : A -> M B) : M B :=
  fun w =>
    match c w with
    | (Ok a, w') => k a w'
    | (Raise e, w') => (Raise e, w')
    end.

Declare Scope py_scope.
Delimit Scope py_scope with py.
Notation "x <- c ;; k" := (bind c (fun x => k))
  (at level 100, c at next level, right associativity) : py_scope.
Notation "c ;; k" := (bind c (fun _ => k))
  (at level 100, right associativity) : py_scope.
Open Scope py_scope.

(** [try: body except Exception as e: handler e]: an [Exception] raised by
    the body is handled in the world the body left; anything else passes. *)
Definition try_except {A} (body : M A) (handler : string -> M A) : M A :=
  fun w =>
    match body w with
    | (Ok a, w') => (Ok a, w')
    | (Raise (Exception msg), w') => handler msg w'
    | (Raise (BaseException msg), w') => (Raise (BaseException msg), w')
    end.

Definition modify (f : world -> world) : M unit := fun w => (Ok tt, f w).
Definition read {A} (f : world -> A) : M A := fun w => (Ok (f w), w).

(** ** The [sqlite3] API, as far as auth.py calls it *)

Module sqlite3.

(** A connection with the cursor made from it (the two share their
    state): the database as the connection sees it, whether a transaction
    is open, and the rows the last SELECT left to fetch. *)
Record connection := mkConn {
  work : Db.db;
  in_transaction : bool;
  fetched : list (text * text)
}.

Inductive sql :=
| CREATE_TABLE_IF_NOT_EXISTS_auth
| DELETE_FROM_auth
| INSERT_INTO_auth (api_key pin_code : text)
| SELECT_latest_auth.

(** Every call first takes the head of the fault schedule. *)
Definition tick : M unit :=
  fun w =>
    match faults w with
    | Some msg :: rest => (Raise (Exception msg), set_faults rest w)
    | None :: rest => (Ok tt, set_faults rest w)
    | [] => (Ok tt, w)
    end.

Definition no_such_table {A} : M A :=
  raise (Exception "no such table: auth").

(** Binding one [str] parameter as text: its UTF-8 encoding is needed
    (UnicodeEncodeError), must not pass INT_MAX bytes (OverflowError) nor
    the length limit of SQLite (DataError with the message of SQLite since
    CPython 3.11, an InterfaceError about the parameter before that; an
    [Exception] in both).  The message of the error, if there is one. *)
Definition bind_text_error (s : text) : option string :=
  match Py.encode_error s with
  | Some msg => Some msg
  | None =>
      if 2147483647 <? Py.utf8_length s then Some "string longer than INT_MAX bytes"%string
      else if Db.max_length <? Py.utf8_length s then Some "string or blob too big"%string
      else None
  end.

(** Binding the two parameters of the INSERT, in their order. *)
Definition bind_error (api_key pin_code : text) : option string :=
  match bind_text_error api_key with
  | Some msg => Some msg
  | None => bind_text_error pin_code
  end.

(** [sqlite3.connect(db_path)] *)
Definition connect : M connection :=
  tick ;;
  d <- read disk ;;
  ret (mkConn d false []).

(** [conn.cursor()] *)
Definition cursor (conn : connection) : M connection :=
  tick ;;
  ret conn.

(** [cursor.execute(stmt)].  DELETE and INSERT open a transaction when
    none is open and change only what the connection sees; CREATE TABLE
    outside a transaction is written at once.  The INSERT is compiled
    (the table must exist), its parameters are bound, and it is run: the
    ids may be used up, the record may pass the length limit. *)
Definition execute (cur : connection) (stmt : sql) : M connection :=
  tick ;;
  match stmt with
  | CREATE_TABLE_IF_NOT_EXISTS_auth =>
      let d := Db.create_if_not_exists (work cur) in
      (if in_transaction cur then ret tt else modify (set_disk d)) ;;
      ret (mkConn d (in_transaction cur) [])
  | DELETE_FROM_auth =>
      match work cur with
      | Some t => ret (mkConn (Some (Db.delete_all t)) true [])
      | None => no_such_table
      end
  | INSERT_INTO_auth k p =>
      match work cur with
      | Some t =>
          match bind_error k p with
          | Some msg => raise (Exception msg)
          | None =>
              now <- read clock ;;
              match Db.insert now k p t with
              | Some t' =>
                  if Db.max_length <? Db.record_size k p
                  then raise (Exception "string or blob too big")
                  else ret (mkConn (Some t') true [])
              | None => raise (Exception "database or disk is full")
              end
          end
      | None => no_such_table
      end
  | SELECT_latest_auth =>
      match work cur with
      | Some t => ret (mkConn (work cur) (in_transaction cur) (Db.select_latest t))
      | None => no_such_table
      end
  end.

(** [cursor.fetchone()] *)
Definition fetchone (cur : connection) : M (option (text * text)) :=
  tick ;;
  ret (hd_error (fetched cur)).

(** [conn.commit()]: the open transaction, if any, reaches the file. *)
Definition commit (conn : connection) : M unit :=
  tick ;;
  if in_transaction conn then modify (set_disk (work conn)) else ret tt.

(** [conn.close()]: what was not committed is lost with the connection. *)
Definition close (conn : connection) : M unit :=
  tick.

End sqlite3.

Module secrets.

(** [secrets.randbelow(exclusive_upper_bound)]: the next draw of the
    random source, brought into [0, bound).  Every integer of the range is
    a possible result (the source may hold it) and nothing else is. *)
Definition randbelow (exclusive_upper_bound : Z) : M Z :=
  if exclusive_upper_bound <=? 0
  then raise (Exception "Upper bound must be positive.")
  else
    fun w =>
      (Ok (entropy w (drawn w) mod exclusive_upper_bound),
       set_drawn (S (drawn w)) w).

End secrets.

(** ** utils/auth.py *)

Module AuthManager.

(** Modelled from the spec: utils/logger.py ([AppLogger]) is not among the
    sources.  The specification has storage failures reported for
    logging and never thrown; [logger.error] therefore appends its entry
    to the log and returns. *)
Definition logger_error (entry : log_entry) : M unit :=
  modify (fun w => set_log (log w ++ [entry]) w).

Definition init_db : M unit :=
  try_except
    (conn <- sqlite3.connect ;;
     cursor <- sqlite3.cursor conn ;;
     cursor <- sqlite3.execute cursor sqlite3.CREATE_TABLE_IF_NOT_EXISTS_auth ;;
     sqlite3.commit cursor ;;
     sqlite3.close cursor)
    (fun e => logger_error (InitError e)).

(** The body of the [try] of [save_credentials]. *)
Definition save_body (api_key pin_code : text) : M bool :=
  conn <- sqlite3.connect ;;
  cursor <- sqlite3.cursor conn ;;
  cursor <- sqlite3.execute cursor sqlite3.DELETE_FROM_auth ;;
  cursor <- sqlite3.execute cursor (sqlite3.INSERT_INTO_auth api_key pin_code) ;;
  sqlite3.commit cursor ;;
  sqlite3.close cursor ;;
  ret true.

Definition save_credentials (api_key pin_code : text) : M bool :=
  try_except
    (save_body api_key pin_code)
    (fun e => logger_error (SaveFailed e) ;; ret false).

(** The body of the [try] of [get_credentials]. *)
Definition get_body : M (option (text * text)) :=
  conn <- sqlite3.connect ;;
  cursor <- sqlite3.cursor conn ;;
  cursor <- sqlite3.execute cursor sqlite3.SELECT_latest_auth ;;
  result <- sqlite3.fetchone cursor ;;
  sqlite3.close cursor ;;
  ret result.

Definition get_credentials : M (option (text * text)) :=
  try_except
    get_body
    (fun e => logger_error (GetFailed e) ;; ret None).

(** The body of the [try] of [clear_credentials]. *)
Definition clear_body : M bool :=
  conn <- sqlite3.connect ;;
  cursor <- sqlite3.cursor conn ;;
  cursor <- sqlite3.execute cursor sqlite3.DELETE_FROM_auth ;;
  sqlite3.commit cursor ;;
  sqlite3.close cursor ;;
  ret true.

Definition clear_credentials : M bool :=
  try_except
    clear_body
    (fun e => logger_error (ClearFailed e) ;; ret false).

Definition generate_pin : M text :=
  n <- secrets.randbelow 10000 ;;
  ret (Py.zfill 4 (Py.str n)).

Definition validate_pin (input_pin : text) : M bool :=
  stored_credentials <- get_credentials ;;
  match stored_credentials with
  | None => ret false
  | Some (_, stored_pin) => ret (text_eqb input_pin stored_pin)
  end.

(** [AuthManager(db_path)]: the constructor runs [init_db]. *)
Definition __init__ : M unit := init_db.

End AuthManager.

(** ** ui/auth_components.py *)

Module AuthWindow.

(** [self.status_text.value = s] *)
Definition with_status_text (s : status) (w : world) : world :=
  set_form (mkWindow (api_key_input (form w)) (pin_input (form w))
                     s (status_color (form w))) w.

(** [self.status_text.color = c] *)
Definition with_status_color (c : color) (w : world) : world :=
  set_form (mkWindow (api_key_input (form w)) (pin_input (form w))
                     (status_text (form w)) c) w.

Definition set_status_text (s : status) : M unit := modify (with_status_text s).

Definition set_status_color (c : color) : M unit := modify (with_status_color c).

(** [await self.status_text.update_async()]: the page is redrawn. *)
Definition update_async : M unit := ret tt.

Definition is_empty (s : text) : bool :=
  match s with
  | [] => true
  | _ :: _ => false
  end.

Section Callbacks.

(** The callback the window is built with. *)
Variable on_auth_success : text -> M unit.

Definition handle_submit : M unit :=
  api_key <- read (fun w => Py.strip (api_key_input (form w))) ;;
  pin <- read (fun w => Py.strip (pin_input (form w))) ;;
  if is_empty api_key && is_empty pin then
    set_status_text EnterKeyOrPin ;;
    update_async
  else
    stored_credentials <- AuthManager.get_credentials ;;
    match stored_credentials with
    | Some (stored_key, _) =>
        ok <- AuthManager.validate_pin pin ;;
        if ok then on_auth_success stored_key
        else
          set_status_text InvalidPin ;;
          update_async
    | None =>
        if is_empty api_key then
          set_status_text EnterKeyFirstLogin ;;
          update_async
        else
          try_except
            (pin_code <- AuthManager.generate_pin ;;
             saved <- AuthManager.save_credentials api_key pin_code ;;
             if saved then
               set_status_text (PinGenerated pin_code) ;;
               set_status_color GREEN_400 ;;
               update_async ;;
               on_auth_success api_key
             else
               set_status_text SaveError ;;
               update_async)
            (fun ex =>
               set_status_text (InvalidApiKey ex) ;;
               update_async)
    end.

End Callbacks.

End AuthWindow.

(** ** main.py: the callback [ChatApp] gives the window *)

Module ChatApp.

(** Modelled from the spec: [init_after_auth] builds [OpenRouterClient],
    [ChatCache], [AppLogger] and [Analytics], and [handle_auth_success]
    goes on to [main_ui]; api/openrouter.py, utils/cache.py, utils/logger.py,
    utils/analytics.py and the widgets of [main_ui] are not among the
    sources.  Following the "authenticated(secret)" event of the
    specification, these calls are taken to return normally and to touch
    neither the credential file nor the form: what is kept of the callback
    is that the key goes to the API client and that [is_authenticated]
    becomes [True].  Statements about a callback that may raise are made
    for an arbitrary callback, not for this one. *)
Definition init_after_auth (api_key : text) : M unit :=
  modify (set_app (mkChatApp true (Some api_key))).

Definition on_auth_success (api_key : text) : M unit :=
  init_after_auth api_key.

End ChatApp.

(** ** Vocabulary of the statements *)

(** The user fills in the two fields of the form ... *)
Definition type_in (api_key pin : text) (w : world) : world :=
  set_form (mkWindow api_key pin (status_text (form w)) (status_color (form w))) w.

(** ... and presses the button. *)
Definition submit (on_auth_success : text -> M unit) (api_key pin : text) : M unit :=
  modify (type_in api_key pin) ;;
  AuthWindow.handle_submit on_auth_success.

(** The record a load without storage error finds in the file: the SELECT
    of [get_credentials] followed by its [fetchone]. *)
Definition stored_record (d : Db.db) : option (text * text) :=
  match d with
  | Some t => hd_error (Db.select_latest t)
  | None => None
  end.

(** SQLite can store the pair as the two texts of a row: both strings
    have a UTF-8 encoding and the row stays within the length limit. *)
Definition storable (api_key pin_code : text) : bool :=
  match sqlite3.bind_error api_key pin_code with
  | Some _ => false
  | None => negb (Db.max_length <? Db.record_size api_key pin_code)
  end.

(** The ids of the table can still grow: INSERT does not fail for lack of one. *)
Definition has_room (t : Db.table) : Prop := Db.seq t < Db.max_rowid.

(** The table after a committed [save_credentials api_key pin_code]. *)
Definition saved_table (now : Db.timestamp) (api_key pin_code : text) (t : Db.table)
  : Db.table :=
  let top := Z.max (Db.seq t) 0 in
  Db.mkTable [Db.mkRow (top + 1) api_key pin_code now] (top + 1).

(** The format of a PIN made from the draw [n]: four characters, all
    decimal digits, reading back as [n]. *)
Definition pin_ok (n : Z) : bool :=
  let pin := Py.zfill 4 (Py.str n) in
  Nat.eqb (List.length pin) 4 && forallb Py.isdigit pin
  && (Py.int_of_digits pin =? n).

(** The single-record invariant of the file. *)
Definition at_most_one (w : world) : Prop :=
  (List.length (Db.records (disk w)) <= 1)%nat.

(** Calls of the methods of [AuthManager], for runs of any length. *)
Inductive call :=
| Init
| Save (api_key pin_code : text)
| Get
| Clear
| Validate (input_pin : text).

Definition perform (c : call) : M unit :=
  match c with
  | Init => AuthManager.init_db
  | Save k p => AuthManager.save_credentials k p ;; ret tt
  | Get => AuthManager.get_credentials ;; ret tt
  | Clear => AuthManager.clear_credentials ;; ret tt
  | Validate q => AuthManager.validate_pin q ;; ret tt
  end.

Fixpoint run (cs : list call) (w : world) : world :=
  match cs with
  | [] => w
  | c :: rest => run rest (snd (perform c w))
  end.

(** One submission of the form after another, with the callback of main.py. *)
Fixpoint submissions (l : list (text * text)) (w : world) : world :=
  match l with
  | [] => w
  | (k, q) :: rest => submissions rest (snd (submit ChatApp.on_auth_success k q w))
  end.

(** A fresh installation: no database file yet, nothing typed, nobody
    authenticated; the first draw of the random source is 42. *)
Definition fresh : world :=
  mkWorld None [] 0%nat (fun _ => 42) 0%nat []
          (mkWindow [] [] NoStatus RED_400) (mkChatApp false None).

(** The same after [AuthManager()] and a first login with the key "sk-abc". *)
Definition enrolled : world :=
  snd (submit ChatApp.on_auth_success (text_of "sk-abc") []
         (snd (AuthManager.__init__ fresh))).

(** A later start of the application on the same file: nothing typed yet,
    nobody authenticated; the next draw of the random source is 7. *)
Definition returning : world :=
  mkWorld (disk enrolled) [] 1%nat (fun _ => 7) 0%nat []
          (mkWindow [] [] NoStatus RED_400) (mkChatApp false None).

(** The same after somebody else emptied the table. *)
Definition wiped : world := set_disk (Some (Db.mkTable [] 1)) returning.

(** ** The rest of ui/auth_components.py and of main.py *)

(** The field [show] gives the focus to.  The page is not part of the
    world: the computations below return the field that received the
    focus as their value. *)
Inductive focus := FocusApiKey | FocusPin.

Module AuthWindowLifecycle.

(** [AuthWindow(on_auth_success, on_reset_requested)]: a new [AuthManager]
    (which runs [init_db]), two empty fields and an empty red status. *)
Definition __init__ : M unit :=
  AuthManager.__init__ ;;
  modify (set_form (mkWindow [] [] NoStatus RED_400)).

(** [show(page)]: the window is put on the page and the focus goes to the
    PIN field when credentials are stored, to the key field otherwise. *)
Definition show : M focus :=
  stored_credentials <- AuthManager.get_credentials ;;
  match stored_credentials with
  | Some _ => ret FocusPin
  | None => ret FocusApiKey
  end.

(** [handle_reset(e)] calls the callback the window was built with. *)
Definition handle_reset {A} (on_reset_requested : M A) : M A :=
  on_reset_requested.

End AuthWindowLifecycle.

Module ChatAppFlow.

(** [ChatApp()]: an [AuthManager] of its own, no API client, not
    authenticated. *)
Definition __init__ : M unit :=
  AuthManager.__init__ ;;
  modify (set_app (mkChatApp false None)).

(** [show_auth_window(page)]: a new window, shown. *)
Definition show_auth_window : M focus :=
  AuthWindowLifecycle.__init__ ;;
  AuthWindowLifecycle.show.

(** The [on_reset_requested] of [show_auth_window]: the result of
    [clear_credentials] is not looked at. *)
Definition on_reset_requested : M focus :=
  AuthManager.clear_credentials ;;
  show_auth_window.

(** [main(page)]: both branches of the test on the stored credentials show
    the authentication window. *)
Definition main : M focus :=
  stored_credentials <- AuthManager.get_credentials ;;
  match stored_credentials with
  | Some _ => show_auth_window
  | None => show_auth_window
  end.

End ChatAppFlow.


(** The window as [AuthWindow(...)] builds it. *)
Definition new_window : window := mkWindow [] [] NoStatus RED_400.

(** The PIN [generate_pin] makes in the world [w]. *)
Definition next_pin (w : world) : text :=
  Py.zfill 4 (Py.str (entropy w (drawn w) mod 10000)).

(** A callback that fails the way a rejected API key would, and leaves
    the world alone. *)
Definition rejecting_callback (msg : string) (api_key : text) : M unit :=
  raise (Exception msg).

(** The file of [returning] before the application ever ran: no table. *)
Definition uninitialised : world := set_disk None returning.

(** The world in which the first-login branch of [handle_submit] calls the
    success callback, when it was entered in [w] with the trimmed key
    [api_key] and the save went through: a PIN was drawn, the pair is on
    file, the status shows the PIN in green. *)
Definition enrolled_world (api_key : text) (t : Db.table) (w : world) : world :=
  AuthWindow.with_status_color GREEN_400
    (AuthWindow.with_status_text (PinGenerated (next_pin w))
       (set_disk (Some (saved_table (clock w) api_key (next_pin w) t))
          (set_drawn (S (drawn w)) w))).

(** The ten decimal digits and the ten thousand strings of four of them. *)
Definition decimal_digits : list char :=
  map Py.digit [0; 1; 2; 3; 4; 5; 6; 7; 8; 9]%N.

Definition four_digit_codes : list text :=
  flat_map (fun a =>
    flat_map (fun b =>
      flat_map (fun c =>
        map (fun d => [a; b; c; d]) decimal_digits)
        decimal_digits)
      decimal_digits)
    decimal_digits.

(** The code [s] is the PIN made from the draw [int(s)], a draw of the range. *)
Definition code_is_drawn (s : text) : bool :=
  text_eqb (Py.zfill 4 (Py.str (Py.int_of_digits s))) s
  && (0 <=? Py.int_of_digits s) && (Py.int_of_digits s <? 10000).

(** ** Code with a state of its own: utils/notifications.py, utils/monitor.py *)

(** The same monad over any state [S]. *)
Definition Eff (S A : Type) : Type := S -> result A * S.

Definition eff_ret {S A} (a : A) : Eff S A := fun s => (Ok a, s).

Definition eff_raise {S A} (e : exn) : Eff S A := fun s => (Raise e, s).

Definition eff_bind {S A B} (c : Eff S A) (k : A -> Eff S B) : Eff S B :=
  fun s =>
    match c s with
    | (Ok a, s') => k a s'
    | (Raise e, s') => (Raise e, s')
    end.

(** [try: body except Exception as e: handler e] *)
Definition eff_try {S A} (body : Eff S A) (handler : string -> Eff S A) : Eff S A :=
  fun s =>
    match body s with
    | (Ok a, s') => (Ok a, s')
    | (Raise (Exception msg), s') => handler msg s'
    | (Raise (BaseException msg), s') => (Raise (BaseException msg), s')
    end.

Definition eff_modify {S} (f : S -> S) : Eff S unit := fun s => (Ok tt, f s).

Definition eff_read {S A} (f : S -> A) : Eff S A := fun s => (Ok (f s), s).

(** A computation on a part [T] of the state [S]. *)
Definition eff_on {S T A} (get : S -> T) (set : T -> S -> S) (c : Eff T A) : Eff S A :=
  fun s => let (r, t) := c (get s) in (r, set t s).

Declare Scope eff_scope.
Delimit Scope eff_scope with eff.
Notation "x <- c ;; k" := (eff_bind c (fun x => k))
  (at level 100, c at next level, right associativity) : eff_scope.
Notation "c ;; k" := (eff_bind c (fun _ => k))
  (at level 100, right associativity) : eff_scope.

Module notifications.

(** The two texts of [send_low_balance_alert]; the subject is "Низкий
    баланс: {balance:.2f} (порог: {threshold})" after a warning sign, the
    body the sentence that asks to top the balance up. *)
Inductive message :=
| LowBalanceSubject (balance threshold : float)
| LowBalanceBody (balance threshold : float).

(** What the module logs. *)
Inductive log_entry :=
| EmailSent (subject : message)   (* info "Email sent to {ADMIN_EMAIL}: {subject}" *)
| EmailFailed (e : string)        (* error "Failed to send email: {e}" *)
| TelegramSent                    (* info "Telegram message sent to chat ID: ..." *)
| TelegramFailed (e : string).    (* error "Failed to send Telegram message: {e}" *)

(** The mail server and Telegram, with a fault schedule each (as for
    [sqlite3]: one entry per call, none left means no fault), what was
    delivered to the administrator, and the log. *)
Record outside := mkOutside {
  smtp_faults : list (option string);
  telegram_faults : list (option string);
  mailbox : list (message * message);
  chat : list message;
  sent_log : list log_entry
}.

(** One call of [smtplib]. *)
Definition smtp_call : Eff outside unit :=
  fun o =>
    match smtp_faults o with
    | Some msg :: rest =>
        (Raise (Exception msg),
         mkOutside rest (telegram_faults o) (mailbox o) (chat o) (sent_log o))
    | None :: rest =>
        (Ok tt, mkOutside rest (telegram_faults o) (mailbox o) (chat o) (sent_log o))
    | [] => (Ok tt, o)
    end.

(** One call of [aiogram]. *)
Definition telegram_call : Eff outside unit :=
  fun o =>
    match telegram_faults o with
    | Some msg :: rest =>
        (Raise (Exception msg),
         mkOutside (smtp_faults o) rest (mailbox o) (chat o) (sent_log o))
    | None :: rest =>
        (Ok tt, mkOutside (smtp_faults o) rest (mailbox o) (chat o) (sent_log o))
    | [] => (Ok tt, o)
    end.

Definition logger_write (e : log_entry) : Eff outside unit :=
  eff_modify (fun o =>
    mkOutside (smtp_faults o) (telegram_faults o) (mailbox o) (chat o)
              (sent_log o ++ [e])).

Definition send_email_notification (subject body : message) : Eff outside unit :=
  eff_try
    (smtp_call ;;                              (* smtplib.SMTP(SMTP_SERVER, SMTP_PORT) *)
     smtp_call ;;                              (* server.starttls() *)
     smtp_call ;;                              (* server.login(SMTP_USER, SMTP_PASSWORD) *)
     smtp_call ;;                              (* server.send_message(msg) *)
     eff_modify (fun o =>
       mkOutside (smtp_faults o) (telegram_faults o)
                 (mailbox o ++ [(subject, body)]) (chat o) (sent_log o)) ;;
     smtp_call ;;                              (* server.quit() *)
     logger_write (EmailSent subject))%eff
    (fun e => logger_write (EmailFailed e)).

Definition send_telegram_notification (text_ : message) : Eff outside unit :=
  eff_try
    (telegram_call ;;                          (* Bot(token=TELEGRAM_BOT_TOKEN) *)
     telegram_call ;;                          (* await bot.send_message(...) *)
     eff_modify (fun o =>
       mkOutside (smtp_faults o) (telegram_faults o)
                 (mailbox o) (chat o ++ [text_]) (sent_log o)) ;;
     logger_write TelegramSent)%eff
    (fun e => logger_write (TelegramFailed e)).

Definition send_low_balance_alert (balance threshold : float) : Eff outside unit :=
  (let subject := LowBalanceSubject balance threshold in
   let body := LowBalanceBody balance threshold in
   send_email_notification subject body ;;
   send_telegram_notification body)%eff.

End notifications.

(** [s.replace(old, new)]: the occurrences of [old] from left to right,
    not overlapping; with an empty [old], [new] goes before every
    character and at the end. *)
Fixpoint strip_prefix (old s : text) : option text :=
  match old, s with
  | [], _ => Some s
  | a :: old', b :: s' => if (a =? b)%N then strip_prefix old' s' else None
  | _ :: _, [] => None
  end.

Fixpoint replace_from (fuel : nat) (old new s : text) : text :=
  match fuel with
  | O => s
  | S fuel' =>
      match strip_prefix old s with
      | Some rest => (new ++ replace_from fuel' old new rest)%list
      | None =>
          match s with
          | [] => []
          | c :: s' => c :: replace_from fuel' old new s'
          end
      end
  end.

Definition str_replace (old new s : text) : text :=
  match old with
  | [] => (new ++ flat_map (fun c => c :: new) s)%list
  | _ :: _ => replace_from (List.length s) old new s
  end.

Module PerformanceMonitor.

Definition datetime := nat.

(** What a call into [psutil] gives: a value, or an exception. *)
Inductive reading (A : Type) :=
| Reads (a : A)
| Fails (msg : string).
Arguments Reads {A} a.
Arguments Fails {A} msg.

(** What the system answers during one [get_metrics]: [datetime.now()],
    [process.cpu_percent()], [process.memory_percent()], the number of
    [process.threads()], [time.time()], and the [datetime.now()] of the
    [except] branch. *)
Record probe := mkProbe {
  seen_now : datetime;
  seen_cpu : reading float;
  seen_memory : reading float;
  seen_threads : reading nat;
  seen_time : float;
  seen_now_on_error : datetime
}.

(** The dict of a sample. *)
Record metrics := mkMetrics {
  timestamp : datetime;
  cpu_percent : float;
  memory_percent : float;
  thread_count : Z;
  uptime : float
}.

(** What [get_metrics] returns: a sample, or the dict with the key 'error'. *)
Inductive metrics_dict :=
| Metrics (m : metrics)
| MetricsError (error : string) (at_ : datetime).

(** "High CPU usage: {x}%", "High memory usage: {x}%", "High thread count: {n}". *)
Inductive health_warning :=
| HighCpu (x : float)
| HighMemory (x : float)
| HighThreads (n : Z).

Inductive health_status := healthy | warning.

(** What [check_health] returns: ['status': 'error'] with the error, or
    status, warnings and timestamp. *)
Inductive health_dict :=
| HealthError (error : string)
| Health (status : health_status) (warnings : list health_warning) (at_ : datetime).

(** What the reply of [api_client.get_balance()] can be: api/openrouter.py
    is not among the sources; [get_current_balance] provides for a text
    and for a number. *)
Inductive balance_reply :=
| ReplyText (s : text)
| ReplyNumber (x : float)
| ReplyRaises (msg : string).

(** What goes to the logger the methods are given. *)
Inductive log_entry :=
| InfoMetrics (m : metrics)               (* "Performance metrics - CPU: ..., Uptime: ..." *)
| WarnPerformance (w : health_warning)    (* "Performance warning: {warning}" *)
| InfoCurrentBalance (x : float)          (* "Current API balance: {x:.4f}" *)
| InfoCooldownActive                      (* "Balance notification cooldown active" *)
| WarnLowBalance (x : float)              (* "Low API balance detected: {x:.4f}" *)
| InfoNotificationSent                    (* "Balance notification sent" *)
| InfoNotificationSkipped                 (* "Balance notification skipped (cooldown)" *)
| InfoBalanceSufficient                   (* "API balance is sufficient" *)
| ErrorCheckingBalance (e : string).      (* "Error checking balance: {e}" *)

(** The fields of a [PerformanceMonitor]. *)
Record monitor := mkMonitor {
  start_time : float;
  metrics_history : list metrics;
  last_balance_notification : option float;
  app_ref : option chat_app          (* self.chat_app *)
}.

(** The system the monitor watches: the probes it will be given, how many
    it took, the reply of the API client, and [time.time()]. *)
Record environment := mkEnvironment {
  system : nat -> probe;
  probed : nat;
  api_reply : balance_reply;
  wall_clock : float
}.

Record state := mkState {
  self : monitor;
  env : environment;
  net : notifications.outside;
  logged : list log_entry
}.

Definition set_self (m : monitor) (s : state) : state :=
  mkState m (env s) (net s) (logged s).
Definition set_env (e : environment) (s : state) : state :=
  mkState (self s) e (net s) (logged s).
Definition set_net (o : notifications.outside) (s : state) : state :=
  mkState (self s) (env s) o (logged s).

(** The logger is an argument of the methods (main.py passes its
    [AppLogger], which is not among the sources): it is taken to record
    what it is told and to return. *)
Definition logger_write (e : log_entry) : Eff state unit :=
  eff_modify (fun s => mkState (self s) (env s) (net s) (logged s ++ [e])).

(** [PerformanceMonitor()] at the time [now]. *)
Definition __init__ (now : float) : monitor := mkMonitor now [] None None.

Definition set_chat_app (app : chat_app) : Eff state unit :=
  eff_modify (fun s =>
    set_self (mkMonitor (start_time (self s)) (metrics_history (self s))
                        (last_balance_notification (self s)) (Some app)) s).

Definition cpu_threshold : float := 80%float.
Definition memory_threshold : float := 75%float.
Definition thread_threshold : Z := 50.

Definition from_reading {A} (r : reading A) : Eff state A :=
  match r with
  | Reads a => eff_ret a
  | Fails msg => eff_raise (Exception msg)
  end.

(** [self.metrics_history.append(metrics)], then [pop(0)] when the list
    has more than 1000 entries. *)
Definition remember (m : metrics) (h : list metrics) : list metrics :=
  let h := (h ++ [m])%list in
  if (1000 <? Z.of_nat (List.length h)) then tl h else h.

Definition get_metrics : Eff state metrics_dict :=
  (p <- eff_read (fun s => system (env s) (probed (env s))) ;;
   eff_modify (fun s =>
     set_env (mkEnvironment (system (env s)) (S (probed (env s)))
                            (api_reply (env s)) (wall_clock (env s))) s) ;;
   eff_try
     (cpu <- from_reading (seen_cpu p) ;;
      memory <- from_reading (seen_memory p) ;;
      threads <- from_reading (seen_threads p) ;;
      started <- eff_read (fun s => start_time (self s)) ;;
      let metrics :=
        mkMetrics (seen_now p) cpu memory (Z.of_nat threads)
                  (PrimFloat.sub (seen_time p) started) in
      eff_modify (fun s =>
        set_self (mkMonitor (start_time (self s))
                            (remember metrics (metrics_history (self s)))
                            (last_balance_notification (self s))
                            (app_ref (self s))) s) ;;
      eff_ret (Metrics metrics))
     (fun e => eff_ret (MetricsError e (seen_now_on_error p))))%eff.

Definition check_health : Eff state health_dict :=
  (metrics <- get_metrics ;;
   match metrics with
   | MetricsError e _ => eff_ret (HealthError e)
   | Metrics m =>
       let h0 := (healthy, @nil health_warning) in
       let h1 :=
         if PrimFloat.ltb cpu_threshold (cpu_percent m)
         then (warning, (snd h0 ++ [HighCpu (cpu_percent m)])%list) else h0 in
       let h2 :=
         if PrimFloat.ltb memory_threshold (memory_percent m)
         then (warning, (snd h1 ++ [HighMemory (memory_percent m)])%list) else h1 in
       let h3 :=
         if thread_threshold <? thread_count m
         then (warning, (snd h2 ++ [HighThreads (thread_count m)])%list) else h2 in
       eff_ret (Health (fst h3) (snd h3) (timestamp m))
   end)%eff.

Fixpoint log_warnings (ws : list health_warning) : Eff state unit :=
  match ws with
  | [] => eff_ret tt
  | w :: rest => (logger_write (WarnPerformance w) ;; log_warnings rest)%eff
  end.

Definition log_metrics : Eff state unit :=
  (metrics <- get_metrics ;;
   health <- check_health ;;
   match metrics with
   | Metrics m => logger_write (InfoMetrics m)
   | MetricsError _ _ => eff_ret tt
   end ;;
   match health with
   | Health warning ws _ => log_warnings ws
   | _ => eff_ret tt
   end)%eff.

Definition balance_prefix : text :=
  [1041; 1072; 1083; 1072; 1085; 1089; 58; 32]%N.   (* "Баланс: " *)

Definition dollar : text := [36%N].                  (* "$" *)

Definition balance_threshold : float := 1%float.

Definition notification_cooldown : float := 3600%float.

(** The truth value of a float: false for 0.0 and -0.0 only. *)
Definition truthy (x : float) : bool := negb (PrimFloat.eqb x 0%float).

Section Builtins.

(** The builtin [float] on a string: [None] stands for its [ValueError]. *)
Variable float_of_str : text -> option float.

(** [logging.error(...)] in monitor.py: the module does not import
    [logging], so the name is unbound when the line runs. *)
Definition logging_error : Eff state unit :=
  eff_raise (Exception "name 'logging' is not defined").

Definition get_balance : Eff state balance_reply :=
  (reply <- eff_read (fun s => api_reply (env s)) ;;
   match reply with
   | ReplyRaises msg => eff_raise (Exception msg)
   | _ => eff_ret reply
   end)%eff.

Definition get_current_balance : Eff state float :=
  (app <- eff_read (fun s => app_ref (self s)) ;;
   match app with
   | Some a =>
       match api_client a with
       | Some _ =>
           eff_try
             (balance <- get_balance ;;
              match balance with
              | ReplyText s =>
                  let balance_str :=
                    Py.strip (str_replace dollar [] (str_replace balance_prefix [] s)) in
                  match float_of_str balance_str with
                  | Some x => eff_ret x
                  | None => eff_raise (Exception "could not convert string to float")
                  end
              | ReplyNumber x => eff_ret x
              | ReplyRaises msg => eff_raise (Exception msg)
              end)
             (fun e => logging_error ;; eff_ret 0%float)
       | None => eff_ret 0%float
       end
   | None => eff_ret 0%float
   end)%eff.

Definition check_balance_and_notify : Eff state unit :=
  eff_try
    (current_balance <- get_current_balance ;;
     logger_write (InfoCurrentBalance current_balance) ;;
     if PrimFloat.ltb current_balance balance_threshold then
       current_time <- eff_read (fun s => wall_clock (env s)) ;;
       last <- eff_read (fun s => last_balance_notification (self s)) ;;
       should_notify <-
         match last with
         | Some t =>
             if truthy t then
               let time_since_last := PrimFloat.sub current_time t in
               if PrimFloat.ltb time_since_last notification_cooldown then
                 logger_write InfoCooldownActive ;;
                 eff_ret false
               else eff_ret true
             else eff_ret true
         | None => eff_ret true
         end ;;
       if should_notify : bool then
         logger_write (WarnLowBalance current_balance) ;;
         eff_on net set_net
           (notifications.send_low_balance_alert current_balance balance_threshold) ;;
         eff_modify (fun s =>
           set_self (mkMonitor (start_time (self s)) (metrics_history (self s))
                               (Some current_time) (app_ref (self s))) s) ;;
         logger_write InfoNotificationSent
       else logger_write InfoNotificationSkipped
     else logger_write InfoBalanceSufficient)%eff
    (fun e => logger_write (ErrorCheckingBalance e)).

End Builtins.

End PerformanceMonitor.

(** The message of the first reading of a probe that fails, in the order
    [get_metrics] takes them. *)
Definition first_failure (p : PerformanceMonitor.probe) : option string :=
  match PerformanceMonitor.seen_cpu p with
  | PerformanceMonitor.Fails msg => Some msg
  | PerformanceMonitor.Reads _ =>
      match PerformanceMonitor.seen_memory p with
      | PerformanceMonitor.Fails msg => Some msg
      | PerformanceMonitor.Reads _ =>
          match PerformanceMonitor.seen_threads p with
          | PerformanceMonitor.Fails msg => Some msg
          | PerformanceMonitor.Reads _ => None
          end
      end
  end.

(** The probe the next [get_metrics] will be given, and the state once it
    is taken. *)
Definition next_probe (s : PerformanceMonitor.state) : PerformanceMonitor.probe :=
  PerformanceMonitor.system (PerformanceMonitor.env s)
    (PerformanceMonitor.probed (PerformanceMonitor.env s)).

Definition probe_taken (s : PerformanceMonitor.state) : PerformanceMonitor.state :=
  PerformanceMonitor.set_env
    (PerformanceMonitor.mkEnvironment
       (PerformanceMonitor.system (PerformanceMonitor.env s))
       (S (PerformanceMonitor.probed (PerformanceMonitor.env s)))
       (PerformanceMonitor.api_reply (PerformanceMonitor.env s))
       (PerformanceMonitor.wall_clock (PerformanceMonitor.env s))) s.

Definition history (s : PerformanceMonitor.state) : list PerformanceMonitor.metrics :=
  PerformanceMonitor.metrics_history (PerformanceMonitor.self s).

(** None of the first [n] calls of a fault schedule fails. *)
Definition no_fault_in (n : nat) (schedule : list (option string)) : bool :=
  forallb (fun f => match f with None => true | Some _ => false end)
          (firstn n schedule).

(** [n] calls of [get_metrics] in a row. *)
Fixpoint sample (n : nat) : Eff PerformanceMonitor.state unit :=
  match n with
  | O => eff_ret tt
  | S k => (PerformanceMonitor.get_metrics ;; sample k)%eff
  end.

(** The warnings of a sample, in the order [check_health] tests them. *)
Definition warnings_of (m : PerformanceMonitor.metrics) : list PerformanceMonitor.health_warning :=
  ((if PrimFloat.ltb PerformanceMonitor.cpu_threshold (PerformanceMonitor.cpu_percent m)
    then [PerformanceMonitor.HighCpu (PerformanceMonitor.cpu_percent m)] else [])
   ++ (if PrimFloat.ltb PerformanceMonitor.memory_threshold (PerformanceMonitor.memory_percent m)
       then [PerformanceMonitor.HighMemory (PerformanceMonitor.memory_percent m)] else [])
   ++ (if PerformanceMonitor.thread_threshold <? PerformanceMonitor.thread_count m
       then [PerformanceMonitor.HighThreads (PerformanceMonitor.thread_count m)] else []))%list.

(** The same state at the time [t] of the wall clock. *)
Definition at_time (t : float) (s : PerformanceMonitor.state) : PerformanceMonitor.state :=
  PerformanceMonitor.set_env
    (PerformanceMonitor.mkEnvironment
       (PerformanceMonitor.system (PerformanceMonitor.env s))
       (PerformanceMonitor.probed (PerformanceMonitor.env s))
       (PerformanceMonitor.api_reply (PerformanceMonitor.env s)) t) s.

(** A quiet machine: 12.5 % CPU, 30 % memory, 8 threads, at every probe. *)
Definition calm_probe : PerformanceMonitor.probe :=
  PerformanceMonitor.mkProbe 100%nat
    (PerformanceMonitor.Reads 12.5%float) (PerformanceMonitor.Reads 30%float)
    (PerformanceMonitor.Reads 8%nat) 1000%float 101%nat.

(** A busy one: 93 % CPU, 60 % memory, 64 threads. *)
Definition busy_probe : PerformanceMonitor.probe :=
  PerformanceMonitor.mkProbe 200%nat
    (PerformanceMonitor.Reads 93%float) (PerformanceMonitor.Reads 60%float)
    (PerformanceMonitor.Reads 64%nat) 2000%float 201%nat.

(** One whose process can no longer be read. *)
Definition dead_probe : PerformanceMonitor.probe :=
  PerformanceMonitor.mkProbe 300%nat
    (PerformanceMonitor.Reads 1%float) (PerformanceMonitor.Fails "process no longer exists")
    (PerformanceMonitor.Fails "access denied") 3000%float 301%nat.

(** A machine exactly at the three thresholds. *)
Definition threshold_probe : PerformanceMonitor.probe :=
  PerformanceMonitor.mkProbe 400%nat
    (PerformanceMonitor.Reads 80%float) (PerformanceMonitor.Reads 75%float)
    (PerformanceMonitor.Reads 50%nat) 4000%float 401%nat.

Definition reachable_outside : notifications.outside :=
  notifications.mkOutside [] [] [] [] [].

(** A monitor started at time 900 and given the authenticated application,
    whose API client reports a balance of 0.25; the clock reads 5000. *)
Definition watching : PerformanceMonitor.state :=
  snd (PerformanceMonitor.set_chat_app (mkChatApp true (Some (text_of "sk-abc")))
         (PerformanceMonitor.mkState
            (PerformanceMonitor.__init__ 900%float)
            (PerformanceMonitor.mkEnvironment
               (fun n => match n with
                         | O => calm_probe
                         | 1%nat => busy_probe
                         | _ => dead_probe
                         end)
               0%nat (PerformanceMonitor.ReplyNumber 0.25%float) 5000%float)
            reachable_outside [])).

(** The monitor of [watching] on a machine that stays at the thresholds. *)
Definition at_the_thresholds : PerformanceMonitor.state :=
  PerformanceMonitor.set_env
    (PerformanceMonitor.mkEnvironment (fun _ => threshold_probe) 0%nat
       (PerformanceMonitor.ReplyNumber 0.25%float) 5000%float)
    watching.

(** The same state with more in the log. *)
Definition with_logged (l : list PerformanceMonitor.log_entry) (s : PerformanceMonitor.state)
  : PerformanceMonitor.state :=
  PerformanceMonitor.mkState (PerformanceMonitor.self s) (PerformanceMonitor.env s)
    (PerformanceMonitor.net s) l.

(** The last notification is recent enough for [check_balance_and_notify]
    to keep quiet: there is one, its time is not 0.0, and less than the
    cooldown has passed since. *)
Definition in_cooldown (s : PerformanceMonitor.state) : bool :=
  match PerformanceMonitor.last_balance_notification (PerformanceMonitor.self s) with
  | Some t =>
      PerformanceMonitor.truthy t
      && PrimFloat.ltb
           (PrimFloat.sub (PerformanceMonitor.wall_clock (PerformanceMonitor.env s)) t)
           PerformanceMonitor.notification_cooldown
  | None => false
  end.

(** The monitor has an application with an API client. *)
Definition has_client (s : PerformanceMonitor.state) : bool :=
  match PerformanceMonitor.app_ref (PerformanceMonitor.self s) with
  | Some a => match api_client a with Some _ => true | None => false end
  | None => false
  end.

(** The state after an alert for [balance] went out at the time of [s]. *)
Definition alerted (balance : float) (s : PerformanceMonitor.state) : PerformanceMonitor.state :=
  PerformanceMonitor.mkState
    (PerformanceMonitor.mkMonitor
       (PerformanceMonitor.start_time (PerformanceMonitor.self s))
       (PerformanceMonitor.metrics_history (PerformanceMonitor.self s))
       (Some (PerformanceMonitor.wall_clock (PerformanceMonitor.env s)))
       (PerformanceMonitor.app_ref (PerformanceMonitor.self s)))
    (PerformanceMonitor.env s)
    (snd (notifications.send_low_balance_alert balance
            PerformanceMonitor.balance_threshold (PerformanceMonitor.net s)))
    (PerformanceMonitor.logged s
     ++ [PerformanceMonitor.InfoCurrentBalance balance;
         PerformanceMonitor.WarnLowBalance balance;
         PerformanceMonitor.InfoNotificationSent])%list.

(** A [float()] for the examples: it knows no string. *)
Definition no_float (s : text) : option float := None.

(** [watching] with a mail server and a Telegram that both refuse. *)
Definition unreachable : PerformanceMonitor.state :=
  PerformanceMonitor.set_net
    (notifications.mkOutside [Some "connection refused"%string]
                             [Some "network unreachable"%string] [] [] [])
    watching.

(** [watching] with an API client that raises, and with an application
    that has no API client. *)
Definition client_down : PerformanceMonitor.state :=
  PerformanceMonitor.set_env
    (PerformanceMonitor.mkEnvironment (fun _ => calm_probe) 0%nat
       (PerformanceMonitor.ReplyRaises "HTTP 503") 5000%float)
    watching.

Definition no_client : PerformanceMonitor.state :=
  PerformanceMonitor.set_self
    (PerformanceMonitor.mkMonitor 900%float [] None (Some (mkChatApp false None)))
    watching.

(** [watching] with a client that reports exactly the threshold. *)
Definition topped_up : PerformanceMonitor.state :=
  PerformanceMonitor.set_env
    (PerformanceMonitor.mkEnvironment (fun _ => calm_probe) 0%nat
       (PerformanceMonitor.ReplyNumber 1%float) 5000%float)
    watching.

(** The string [float()] is given for a text reply. *)
Definition balance_text (s : text) : text :=
  Py.strip (str_replace PerformanceMonitor.dollar []
              (str_replace PerformanceMonitor.balance_prefix [] s)).

(** * Properties *)

(** ** Sanity checks on concrete inputs *)

Example zfill_7 : Py.zfill 4 (Py.str 7) = text_of "0007".
Proof. reflexivity. Qed.

Example zfill_signed : Py.zfill 4 (Py.str (-7)) = text_of "-007".
Proof. reflexivity. Qed.

Example zfill_long : Py.zfill 4 (Py.str 123456) = text_of "123456".
Proof. reflexivity. Qed.

Example strip_inner_space : Py.strip (text_of "  12 4 ") = text_of "12 4".
Proof. reflexivity. Qed.

Example enrolled_record : stored_record (disk enrolled) = Some (text_of "sk-abc", text_of "0042").
Proof. reflexivity. Qed.

Example enrolled_status : status_text (form enrolled) = PinGenerated (text_of "0042").
Proof. reflexivity. Qed.

(** The rejection example of the specification: with (s, "1234") stored,
    "0000" is refused and "1234" authenticates with s. *)
Example refuses_0000 :
  let w := snd (AuthManager.save_credentials (text_of "s") (text_of "1234") returning) in
  let w' := snd (submit ChatApp.on_auth_success [] (text_of "0000") w) in
  status_text (form w') = InvalidPin
  /\ is_authenticated (app w') = false
  /\ stored_record (disk w') = Some (text_of "s", text_of "1234").
Proof. cbv zeta. repeat split. Qed.

Example accepts_1234 :
  let w := snd (AuthManager.save_credentials (text_of "s") (text_of "1234") returning) in
  let w' := snd (submit ChatApp.on_auth_success [] (text_of "1234") w) in
  app w' = mkChatApp true (Some (text_of "s")).
Proof. reflexivity. Qed.

(** ** Unfolding the monad *)

Ltac unfold_py :=
  unfold AuthWindow.handle_submit, submit,
    AuthManager.validate_pin, AuthManager.generate_pin,
    AuthManager.save_credentials, AuthManager.save_body,
    AuthManager.get_credentials, AuthManager.get_body,
    AuthManager.clear_credentials, AuthManager.clear_body,
    AuthManager.__init__, AuthManager.init_db, AuthManager.logger_error,
    AuthWindow.set_status_text, AuthWindow.set_status_color,
    AuthWindow.update_async,
    sqlite3.connect, sqlite3.cursor, sqlite3.execute, sqlite3.fetchone,
    sqlite3.commit, sqlite3.close, sqlite3.no_such_table, sqlite3.tick,
    try_except, bind, ret, raise, modify, read in *.

(** The next entry of the fault schedule: none left, no fault, or a fault. *)
Ltac next_fault f := destruct f as [ | [ ? | ] f ]; cbn.

Lemma insert_after_delete now k p t :
  Db.insert now k p (Db.delete_all t)
  = if Db.max_rowid <=? Z.max (Db.seq t) 0 then None
    else Some (saved_table now k p t).
Proof. reflexivity. Qed.

Lemma room_after_delete t :
  has_room t -> (Db.max_rowid <=? Z.max (Db.seq t) 0) = false.
Proof.
  unfold has_room, Db.max_rowid. intros H.
  apply Z.leb_gt. lia.
Qed.

Lemma stored_saved now k p t :
  stored_record (Some (saved_table now k p t)) = Some (k, p).
Proof. reflexivity. Qed.

Lemma text_eqb_eq a b : text_eqb a b = true <-> a = b.
Proof.
  unfold text_eqb. destruct (list_eq_dec N.eq_dec a b); split; congruence.
Qed.

Lemma text_eqb_refl a : text_eqb a a = true.
Proof. apply text_eqb_eq. reflexivity. Qed.

Lemma text_eqb_neq a b : a <> b -> text_eqb a b = false.
Proof.
  intros H. destruct (text_eqb a b) eqn:E; [ | reflexivity ].
  apply text_eqb_eq in E. contradiction.
Qed.

(** ** Loads *)

(** Without a storage error, a load of a file that has the table returns
    the newest row and leaves the world as it was. *)
Lemma get_quiet w t :
  faults w = [] -> disk w = Some t ->
  AuthManager.get_credentials w = (Ok (stored_record (disk w)), w).
Proof.
  destruct w as [d f c e n l fm a]. cbn. intros -> ->.
  unfold_py. cbn. reflexivity.
Qed.

(** Whatever the storage does, a load returns (it does not raise) and
    writes nothing but the log and the fault schedule. *)
Lemma get_frame w :
  exists r w',
    AuthManager.get_credentials w = (Ok r, w')
    /\ disk w' = disk w /\ form w' = form w /\ app w' = app w
    /\ drawn w' = drawn w /\ entropy w' = entropy w /\ clock w' = clock w.
Proof.
  destruct w as [d f c e n l fm a]. unfold_py.
  destruct d as [t | ]; cbn; do 5 (try next_fault f);
    do 2 eexists; (split; [ reflexivity | cbn; auto 10 ]).
Qed.

(** ** Saves *)

Arguments Db.insert : simpl never.
Arguments sqlite3.bind_error : simpl never.
Arguments Db.record_size : simpl never.

(** What the INSERT of a save can meet once its turn has come: a parameter
    that cannot be bound, no id left, a record that is too long. *)
Ltac insert_cases k p t :=
  try (destruct (sqlite3.bind_error k p) eqn:Ebind; cbn);
  rewrite ?insert_after_delete;
  try (destruct (Db.max_rowid <=? Z.max (Db.seq t) 0) eqn:Eroom; cbn);
  try (destruct (Db.max_length <? Db.record_size k p) eqn:Esize; cbn).

Lemma room_of_insert t :
  (Db.max_rowid <=? Z.max (Db.seq t) 0) = false -> has_room t.
Proof.
  unfold has_room. intros H. apply Z.leb_gt in H. lia.
Qed.

(** Whatever the storage does, a save returns a boolean (it does not
    raise); the file is either left as it was or holds exactly the new
    record; and [True] is returned only in the second case. *)
Lemma save_frame k p w :
  exists b w',
    AuthManager.save_credentials k p w = (Ok b, w')
    /\ form w' = form w /\ app w' = app w
    /\ drawn w' = drawn w /\ entropy w' = entropy w /\ clock w' = clock w
    /\ (disk w' = disk w
        \/ exists t, disk w = Some t /\ has_room t
                     /\ disk w' = Some (saved_table (clock w) k p t))
    /\ (b = true ->
        exists t, disk w = Some t /\ has_room t
                  /\ disk w' = Some (saved_table (clock w) k p t)).
Proof.
  destruct w as [d f c e n l fm a]. unfold_py.
  destruct d as [t | ]; cbn; do 6 (try next_fault f);
    insert_cases k p t;
    try (apply room_of_insert in Eroom);
    do 2 eexists;
    (split; [ reflexivity | cbn; repeat split; eauto; try discriminate ]).
Qed.

(** Without a storage error and with an id left, a save commits the new
    record, whatever the two strings are. *)
Lemma storable_binds k p :
  storable k p = true ->
  sqlite3.bind_error k p = None
  /\ (Db.max_length <? Db.record_size k p) = false.
Proof.
  unfold storable. destruct (sqlite3.bind_error k p); [ discriminate | ].
  intros H. split; [ reflexivity | ].
  destruct (Db.max_length <? Db.record_size k p); [ discriminate | reflexivity ].
Qed.

Lemma save_unstorable k p w t :
  faults w = [] -> disk w = Some t -> storable k p = false ->
  exists m,
    AuthManager.save_credentials k p w
    = (Ok false, set_log (log w ++ [SaveFailed m]) w).
Proof.
  destruct w as [d f c e n l fm a]. cbn. intros -> ->.
  unfold storable. unfold_py. cbn.
  destruct (sqlite3.bind_error k p) eqn:Ebind; cbn; intros Hs.
  - eexists; reflexivity.
  - rewrite insert_after_delete.
    destruct (Db.max_rowid <=? Z.max (Db.seq t) 0); cbn.
    + eexists; reflexivity.
    + destruct (Db.max_length <? Db.record_size k p); cbn;
        [ eexists; reflexivity | discriminate Hs ].
Qed.

Lemma save_quiet k p w t :
  faults w = [] -> disk w = Some t -> has_room t -> storable k p = true ->
  AuthManager.save_credentials k p w
  = (Ok true, set_disk (Some (saved_table (clock w) k p t)) w).
Proof.
  destruct w as [d f c e n l fm a]. cbn. intros -> -> H Hs.
  destruct (storable_binds k p Hs) as [Hb Hr].
  unfold_py. cbn. rewrite Hb. cbn.
  rewrite insert_after_delete, (room_after_delete _ H). cbn. rewrite Hr.
  reflexivity.
Qed.

(** ** Clearing and initialising *)

Lemma clear_frame w :
  exists b w',
    AuthManager.clear_credentials w = (Ok b, w')
    /\ form w' = form w /\ app w' = app w
    /\ (disk w' = disk w
        \/ exists t, disk w = Some t /\ disk w' = Some (Db.delete_all t)).
Proof.
  destruct w as [d f c e n l fm a]. unfold_py.
  destruct d as [t | ]; cbn; do 5 (try next_fault f);
    do 2 eexists; (split; [ reflexivity | cbn; repeat split; eauto ]).
Qed.

Lemma init_frame w :
  exists w',
    AuthManager.init_db w = (Ok tt, w')
    /\ form w' = form w /\ app w' = app w
    /\ (disk w' = disk w \/ disk w' = Db.create_if_not_exists (disk w)).
Proof.
  destruct w as [d f c e n l fm a]. unfold_py.
  destruct d as [t | ]; cbn; do 5 (try next_fault f);
    eexists; (split; [ reflexivity | cbn; repeat split; eauto ]).
Qed.

Lemma validate_frame q w :
  exists b w',
    AuthManager.validate_pin q w = (Ok b, w')
    /\ disk w' = disk w /\ form w' = form w /\ app w' = app w
    /\ drawn w' = drawn w /\ entropy w' = entropy w /\ clock w' = clock w.
Proof.
  destruct (get_frame w) as (r & w' & E & H).
  unfold AuthManager.validate_pin, bind. rewrite E.
  destruct r as [[s p] | ]; do 2 eexists; (split; [ reflexivity | exact H ]).
Qed.

(** Without a storage error, the verdict on a PIN is its comparison with
    the stored one, and the world is left as it was. *)
Lemma validate_quiet q w s p :
  faults w = [] -> stored_record (disk w) = Some (s, p) ->
  AuthManager.validate_pin q w = (Ok (text_eqb q p), w).
Proof.
  intros Hf Hs. destruct (disk w) as [t | ] eqn:Hd; [ | discriminate ].
  unfold AuthManager.validate_pin, bind.
  rewrite (get_quiet w t Hf Hd), Hd, Hs. reflexivity.
Qed.

(** A store without a record yields no credentials, with or without
    storage errors. *)
Lemma get_none w :
  Db.records (disk w) = [] ->
  fst (AuthManager.get_credentials w) = Ok None.
Proof.
  destruct w as [d f c e n l fm a]. unfold_py.
  destruct d as [[rs sq] | ]; cbn; intros H; subst;
    do 5 (try next_fault f); reflexivity.
Qed.

(** ** The form handler *)

Section Handler.

Variable on_auth_success : text -> M unit.

Lemma handle_submit_nothing_entered w :
  Py.strip (api_key_input (form w)) = [] ->
  Py.strip (pin_input (form w)) = [] ->
  AuthWindow.handle_submit on_auth_success w
  = (Ok tt, AuthWindow.with_status_text EnterKeyOrPin w).
Proof.
  intros Hk Hq. unfold AuthWindow.handle_submit, bind, read.
  rewrite Hk, Hq. reflexivity.
Qed.

Lemma handle_submit_stored w s p :
  faults w = [] ->
  stored_record (disk w) = Some (s, p) ->
  AuthWindow.is_empty (Py.strip (api_key_input (form w)))
    && AuthWindow.is_empty (Py.strip (pin_input (form w))) = false ->
  AuthWindow.handle_submit on_auth_success w
  = if text_eqb (Py.strip (pin_input (form w))) p
    then on_auth_success s w
    else (Ok tt, AuthWindow.with_status_text InvalidPin w).
Proof.
  intros Hf Hs He.
  destruct (disk w) as [t | ] eqn:Hd; [ | discriminate ].
  unfold AuthWindow.handle_submit, bind, read. rewrite He.
  rewrite (get_quiet w t Hf Hd), Hd, Hs.
  assert (Hs' : stored_record (disk w) = Some (s, p)) by (rewrite Hd; exact Hs).
  rewrite (validate_quiet _ w s p Hf Hs').
  destruct (text_eqb _ p); reflexivity.
Qed.

Lemma handle_submit_no_record_no_key w :
  Db.records (disk w) = [] ->
  Py.strip (api_key_input (form w)) = [] ->
  Py.strip (pin_input (form w)) <> [] ->
  AuthWindow.handle_submit on_auth_success w
  = (Ok tt, AuthWindow.with_status_text EnterKeyFirstLogin
              (snd (AuthManager.get_credentials w))).
Proof.
  intros Hr Hk Hq. unfold AuthWindow.handle_submit, bind, read.
  rewrite Hk. destruct (Py.strip (pin_input (form w))) eqn:E; [ congruence | ].
  cbn [AuthWindow.is_empty andb].
  pose proof (get_none w Hr) as Hg.
  destruct (AuthManager.get_credentials w) as [r w'].
  cbn in Hg. subst r. reflexivity.
Qed.

End Handler.

(** ** C1: the PIN is checked by exact equality *)

(** C1.  Let the store hold the record (s, p) and let no storage error
    occur.  [validate_pin q] answers [True] exactly when [q] is [p],
    character for character, and changes nothing.  A submission of the form
    in which something was entered hands the pin field, trimmed by
    [handle_submit], to that check: when the trimmed pin is [p] the success
    callback runs with the stored secret [s]; otherwise the callback does
    not run, the status text of the form reads "invalid PIN" when
    [handle_submit] returns, and the rest of the world (the colour of the
    status, the application, the file with its record) is as before. *)
Theorem pin_check_is_exact_equality :
  forall (on_auth_success : text -> M unit) (w : world) (s p k q : text),
    faults w = [] ->
    stored_record (disk w) = Some (s, p) ->
    Py.strip k <> [] \/ Py.strip q <> [] ->
    ((q = p /\ AuthManager.validate_pin q w = (Ok true, w))
     \/ (q <> p /\ AuthManager.validate_pin q w = (Ok false, w)))
    /\ ((Py.strip q = p
         /\ submit on_auth_success k q w = on_auth_success s (type_in k q w))
        \/ (Py.strip q <> p
            /\ submit on_auth_success k q w
               = (Ok tt, AuthWindow.with_status_text InvalidPin (type_in k q w))
            /\ stored_record
                 (disk (AuthWindow.with_status_text InvalidPin (type_in k q w)))
               = Some (s, p)
            /\ status_text (form (snd (submit on_auth_success k q w))) = InvalidPin
            /\ status_color (form (snd (submit on_auth_success k q w)))
               = status_color (form w)
            /\ app (snd (submit on_auth_success k q w)) = app w
            /\ disk (snd (submit on_auth_success k q w)) = disk w)).
Proof.
  intros cb w s p k q Hf Hs Hne. split.
  - rewrite (validate_quiet q w s p Hf Hs).
    destruct (list_eq_dec N.eq_dec q p) as [E | E].
    + left. subst q. rewrite text_eqb_refl. auto.
    + right. rewrite (text_eqb_neq _ _ E). auto.
  - assert (He : AuthWindow.is_empty (Py.strip k)
                 && AuthWindow.is_empty (Py.strip q) = false).
    { destruct (Py.strip k), (Py.strip q); try reflexivity.
      destruct Hne; congruence. }
    unfold submit, bind, modify.
    rewrite (handle_submit_stored cb (type_in k q w) s p Hf Hs He).
    cbn [type_in form set_form pin_input].
    destruct (list_eq_dec N.eq_dec (Py.strip q) p) as [E | E].
    + left. rewrite E, text_eqb_refl. auto.
    + right. rewrite (text_eqb_neq _ _ E). cbn [fst snd].
      split; [ exact E | ]. split; [ reflexivity | ].
      split; [ exact Hs | ]. repeat split.
Qed.

Lemma pin_check_is_exact_equality_witness :
  faults returning = []
  /\ stored_record (disk returning) = Some (text_of "sk-abc", text_of "0042")
  /\ ((text_of "0042" = text_of "0042"
       /\ AuthManager.validate_pin (text_of "0042") returning = (Ok true, returning))
      \/ (text_of "0042" <> text_of "0042"
          /\ AuthManager.validate_pin (text_of "0042") returning
             = (Ok false, returning)))
  /\ ((Py.strip (text_of "0042") = text_of "0042"
       /\ submit ChatApp.on_auth_success [] (text_of "0042") returning
          = ChatApp.on_auth_success (text_of "sk-abc")
              (type_in [] (text_of "0042") returning))
      \/ (Py.strip (text_of "0042") <> text_of "0042"
          /\ submit ChatApp.on_auth_success [] (text_of "0042") returning
             = (Ok tt, AuthWindow.with_status_text InvalidPin
                         (type_in [] (text_of "0042") returning))
          /\ stored_record
               (disk (AuthWindow.with_status_text InvalidPin
                        (type_in [] (text_of "0042") returning)))
             = Some (text_of "sk-abc", text_of "0042")
          /\ status_text
               (form (snd (submit ChatApp.on_auth_success [] (text_of "0042") returning)))
             = InvalidPin
          /\ status_color
               (form (snd (submit ChatApp.on_auth_success [] (text_of "0042") returning)))
             = status_color (form returning)
          /\ app (snd (submit ChatApp.on_auth_success [] (text_of "0042") returning))
             = app returning
          /\ disk (snd (submit ChatApp.on_auth_success [] (text_of "0042") returning))
             = disk returning)).
Proof.
  split; [ reflexivity | split; [ reflexivity | ] ].
  apply (pin_check_is_exact_equality ChatApp.on_auth_success returning
           (text_of "sk-abc") (text_of "0042") [] (text_of "0042")).
  - reflexivity.
  - reflexivity.
  - right. discriminate.
Defined.

(** ** C2: round trip *)

(** The load that follows a committed save, shared by the proofs below. *)
Lemma load_after_save k p w w' :
  AuthManager.save_credentials k p w = (Ok true, w') ->
  faults w' = [] ->
  AuthManager.get_credentials w' = (Ok (Some (k, p)), w').
Proof.
  intros Hsave Hf.
  destruct (save_frame k p w) as (b & w1 & E & _ & _ & _ & _ & _ & _ & Hb).
  rewrite E in Hsave. injection Hsave as -> ->.
  destruct (Hb eq_refl) as (t & _ & _ & Hd).
  rewrite (get_quiet w' _ Hf Hd), Hd. apply f_equal2; reflexivity.
Qed.

(** C2.  When [save_credentials secret pin] returns [True], a load that
    follows it without a storage error returns exactly [(secret, pin)] and
    changes nothing.  The secret need not even be non-empty. *)
Theorem save_then_load_round_trip :
  forall (secret pin : text) (w w' : world),
    AuthManager.save_credentials secret pin w = (Ok true, w') ->
    faults w' = [] ->
    AuthManager.get_credentials w' = (Ok (Some (secret, pin)), w').
Proof.
  intros k p w w' Hsave Hf.
  destruct (save_frame k p w) as (b & w1 & E & _ & _ & _ & _ & _ & _ & Hb).
  rewrite E in Hsave. injection Hsave as -> ->.
  destruct (Hb eq_refl) as (t & _ & _ & Hd).
  rewrite (get_quiet w' _ Hf Hd), Hd. apply f_equal2; reflexivity.
Qed.

Lemma save_then_load_round_trip_witness :
  AuthManager.get_credentials
    (snd (AuthManager.save_credentials (text_of "sk-or-v1") (text_of "0915") returning))
  = (Ok (Some (text_of "sk-or-v1", text_of "0915")),
     snd (AuthManager.save_credentials (text_of "sk-or-v1") (text_of "0915") returning)).
Proof.
  apply (save_then_load_round_trip (text_of "sk-or-v1") (text_of "0915") returning).
  - reflexivity.
  - reflexivity.
Defined.

(** ** C3: a save replaces the record *)

(** C3.  After two saves that both returned [True], the file holds one
    row, that of the second save, and a load without storage error returns
    exactly the second pair. *)
Theorem second_save_replaces_first :
  forall (s1 p1 s2 p2 : text) (w w1 w2 : world),
    AuthManager.save_credentials s1 p1 w = (Ok true, w1) ->
    AuthManager.save_credentials s2 p2 w1 = (Ok true, w2) ->
    faults w2 = [] ->
    AuthManager.get_credentials w2 = (Ok (Some (s2, p2)), w2)
    /\ exists r, Db.records (disk w2) = [r]
                 /\ Db.api_key r = s2 /\ Db.pin_code r = p2.
Proof.
  intros s1 p1 s2 p2 w w1 w2 H1 H2 Hf. split.
  - exact (load_after_save s2 p2 w1 w2 H2 Hf).
  - destruct (save_frame s2 p2 w1) as (b & w' & E & _ & _ & _ & _ & _ & _ & Hb).
    rewrite E in H2. injection H2 as -> ->.
    destruct (Hb eq_refl) as (t & _ & _ & Hd).
    rewrite Hd. eexists. cbn. repeat split.
Qed.

Lemma second_save_replaces_first_witness :
  let w1 := snd (AuthManager.save_credentials (text_of "sk-one") (text_of "1111") returning) in
  let w2 := snd (AuthManager.save_credentials (text_of "sk-two") (text_of "2222") w1) in
  AuthManager.get_credentials w2 = (Ok (Some (text_of "sk-two", text_of "2222")), w2)
  /\ exists r, Db.records (disk w2) = [r]
               /\ Db.api_key r = text_of "sk-two" /\ Db.pin_code r = text_of "2222".
Proof.
  intros w1 w2.
  apply (second_save_replaces_first
           (text_of "sk-one") (text_of "1111") (text_of "sk-two") (text_of "2222")
           returning w1 w2).
  - reflexivity.
  - reflexivity.
  - reflexivity.
Defined.

(** ** C10: a save checks nothing about its arguments, sqlite3 does *)

(** C10 as stated fails: a string with a lone surrogate code point cannot
    be bound to the INSERT.  On a healthy store, with no storage error
    anywhere, [save_credentials] then returns [False], logs the encoding
    error and leaves the old record in place; the load that follows returns
    the old record, not the pair that was passed. *)
Lemma lone_surrogate_is_refused :
  faults returning = []
  /\ (exists t, disk returning = Some t /\ has_room t)
  /\ AuthManager.save_credentials [55296%N] (text_of "1234") returning
     = (Ok false,
        set_log
          [SaveFailed "'utf-8' codec can't encode character '\ud800' in position 0: surrogates not allowed"]
          returning)
  /\ (let w' := snd (AuthManager.save_credentials [55296%N] (text_of "1234") returning) in
      disk w' = disk returning
      /\ AuthManager.get_credentials w'
         = (Ok (Some (text_of "sk-abc", text_of "0042")), w'))
  /\ ~ (exists w',
          AuthManager.save_credentials [55296%N] (text_of "1234") returning = (Ok true, w')
          /\ AuthManager.get_credentials w' = (Ok (Some ([55296%N], text_of "1234")), w')).
Proof.
  split; [ reflexivity | ].
  split; [ eexists; split; reflexivity | ].
  split; [ reflexivity | ].
  split; [ cbv zeta; split; reflexivity | ].
  intros (w' & H & _). discriminate H.
Qed.

(** C10, amended.  [save_credentials] itself checks nothing: the only
    strings it does not take are those sqlite3 cannot bind or store.  Let
    the table exist, an id be left and no storage error occur.  For every
    two strings that are storable as text (no lone surrogate code point,
    the row within SQLite's length limit), the empty secret and ill-formed
    pins included, [save_credentials] returns [True] and commits the pair,
    and the load that follows returns exactly that pair.  For the others it
    returns [False], logs the error and leaves everything else as it was. *)
Theorem save_accepts_any_storable_strings :
  forall (api_key pin_code : text) (w : world) (t : Db.table),
    faults w = [] ->
    disk w = Some t ->
    has_room t ->
    if storable api_key pin_code
    then exists w',
           AuthManager.save_credentials api_key pin_code w = (Ok true, w')
           /\ disk w' = Some (saved_table (clock w) api_key pin_code t)
           /\ AuthManager.get_credentials w' = (Ok (Some (api_key, pin_code)), w')
    else exists m,
           AuthManager.save_credentials api_key pin_code w
           = (Ok false, set_log (log w ++ [SaveFailed m]) w).
Proof.
  intros k p w t Hf Hd Hr.
  destruct (storable k p) eqn:Hst.
  - exists (set_disk (Some (saved_table (clock w) k p t)) w).
    pose proof (save_quiet k p w t Hf Hd Hr Hst) as Hs.
    split; [ exact Hs | ]. split; [ reflexivity | ].
    apply (load_after_save k p w _ Hs). exact Hf.
  - exact (save_unstorable k p w t Hf Hd Hst).
Qed.

Lemma save_accepts_any_storable_strings_witness :
  exists w',
    AuthManager.save_credentials [] (text_of "12x45 ") returning = (Ok true, w')
    /\ disk w'
       = Some (saved_table (clock returning) [] (text_of "12x45 ")
                 (Db.mkTable [Db.mkRow 1 (text_of "sk-abc") (text_of "0042") 0%nat] 1))
    /\ AuthManager.get_credentials w' = (Ok (Some ([], text_of "12x45 ")), w').
Proof.
  apply (save_accepts_any_storable_strings [] (text_of "12x45 ") returning
           (Db.mkTable [Db.mkRow 1 (text_of "sk-abc") (text_of "0042") 0%nat] 1)).
  - reflexivity.
  - reflexivity.
  - reflexivity.
Defined.

(** ** C4: at most one record *)

Lemma perform_keeps_at_most_one c w :
  at_most_one w -> at_most_one (snd (perform c w)).
Proof.
  unfold at_most_one. intros H. destruct c as [ | k p | | | q ]; unfold perform, bind.
  - destruct (init_frame w) as (w' & E & _ & _ & [Hd | Hd]);
      rewrite E; cbn [snd]; rewrite Hd; [ exact H | ].
    destruct (disk w); [ exact H | cbn; lia ].
  - destruct (save_frame k p w) as (b & w' & E & _ & _ & _ & _ & _ & Hd & _).
    rewrite E. cbn [snd ret].
    destruct Hd as [Hd | (t & _ & _ & Hd)]; rewrite Hd; [ exact H | cbn; lia ].
  - destruct (get_frame w) as (r & w' & E & Hd & _).
    rewrite E. cbn [snd ret]. rewrite Hd. exact H.
  - destruct (clear_frame w) as (b & w' & E & _ & _ & Hd).
    rewrite E. cbn [snd ret].
    destruct Hd as [Hd | (t & _ & Hd)]; rewrite Hd; [ exact H | cbn; lia ].
  - destruct (validate_frame q w) as (b & w' & E & Hd & _).
    rewrite E. cbn [snd ret]. rewrite Hd. exact H.
Qed.

Lemma run_keeps_at_most_one cs :
  forall w, at_most_one w -> at_most_one (run cs w).
Proof.
  induction cs as [ | c cs IH ]; intros w H; cbn [run].
  - exact H.
  - apply IH, perform_keeps_at_most_one, H.
Qed.

(** C4.  Start from a store without a record and call the methods of
    [AuthManager] in any order, any number of times, with storage errors
    striking anywhere.  The file then holds at most one record.  A save
    made at that point leaves the file either untouched or holding the new
    record alone: the old record is never gone without the new one being
    there, and the two are never there together.  When the save returns
    [True], the file holds the new record alone. *)
Theorem single_record_invariant :
  forall (cs : list call) (w : world) (k p : text),
    Db.records (disk w) = [] ->
    (List.length (Db.records (disk (run cs w))) <= 1)%nat
    /\ (disk (snd (AuthManager.save_credentials k p (run cs w))) = disk (run cs w)
        \/ exists r,
             Db.records (disk (snd (AuthManager.save_credentials k p (run cs w)))) = [r]
             /\ Db.api_key r = k /\ Db.pin_code r = p)
    /\ (fst (AuthManager.save_credentials k p (run cs w)) = Ok false
        \/ (fst (AuthManager.save_credentials k p (run cs w)) = Ok true
            /\ exists r,
                 Db.records (disk (snd (AuthManager.save_credentials k p (run cs w)))) = [r]
                 /\ Db.api_key r = k /\ Db.pin_code r = p)).
Proof.
  intros cs w k p H0.
  assert (H1 : at_most_one w) by (unfold at_most_one; rewrite H0; cbn; lia).
  split; [ exact (run_keeps_at_most_one cs w H1) | ].
  destruct (save_frame k p (run cs w))
    as (b & w' & E & _ & _ & _ & _ & _ & Hd & Hb).
  rewrite E. cbn [fst snd]. split.
  - destruct Hd as [Hd | (t & _ & _ & Hd)]; [ left; exact Hd | right ].
    rewrite Hd. eexists. cbn. repeat split.
  - destruct b; [ right | left; reflexivity ].
    split; [ reflexivity | ].
    destruct (Hb eq_refl) as (t & _ & _ & Hd').
    rewrite Hd'. eexists. cbn. repeat split.
Qed.

Lemma single_record_invariant_witness :
  let cs := [Init; Save (text_of "sk-one") (text_of "1111");
             Validate (text_of "0000"); Save (text_of "sk-two") (text_of "2222");
             Clear; Get; Save (text_of "sk-three") (text_of "3333")] in
  let k := text_of "sk-four" in
  let p := text_of "4444" in
  (List.length (Db.records (disk (run cs fresh))) <= 1)%nat
  /\ (disk (snd (AuthManager.save_credentials k p (run cs fresh))) = disk (run cs fresh)
      \/ exists r,
           Db.records (disk (snd (AuthManager.save_credentials k p (run cs fresh)))) = [r]
           /\ Db.api_key r = k /\ Db.pin_code r = p)
  /\ (fst (AuthManager.save_credentials k p (run cs fresh)) = Ok false
      \/ (fst (AuthManager.save_credentials k p (run cs fresh)) = Ok true
          /\ exists r,
               Db.records (disk (snd (AuthManager.save_credentials k p (run cs fresh)))) = [r]
               /\ Db.api_key r = k /\ Db.pin_code r = p)).
Proof.
  intros cs k p.
  apply (single_record_invariant cs fresh k p).
  reflexivity.
Defined.

(** ** C5: a PIN submitted to a store without a record *)

Lemma validate_none q w :
  Db.records (disk w) = [] ->
  fst (AuthManager.validate_pin q w) = Ok false.
Proof.
  intros Hr. pose proof (get_none w Hr) as Hg.
  unfold AuthManager.validate_pin, bind.
  destruct (AuthManager.get_credentials w) as [r w'].
  cbn in Hg. subst r. reflexivity.
Qed.

(** C5 as stated fails: on a store that somebody emptied, a submission
    with a PIN and a non-blank API key is a first login; it stores the key
    with a newly drawn PIN and authenticates.  And [validate_pin] by itself
    answers a missing record with the [False] of a wrong PIN. *)
Lemma pin_with_key_on_wiped_store_enrolls :
  stored_record (disk wiped) = None
  /\ fst (AuthManager.validate_pin (text_of "0042") wiped)
     = fst (AuthManager.validate_pin (text_of "0000") returning)
  /\ (let w' := snd (submit ChatApp.on_auth_success
                       (text_of "sk-new") (text_of "0042") wiped) in
      stored_record (disk w') = Some (text_of "sk-new", text_of "0007")
      /\ is_authenticated (app w') = true
      /\ status_text (form w') = PinGenerated (text_of "0007"))
  /\ ~ (let w' := snd (submit ChatApp.on_auth_success
                         (text_of "sk-new") (text_of "0042") wiped) in
        stored_record (disk w') = None /\ is_authenticated (app w') = false).
Proof.
  split; [ reflexivity | split; [ reflexivity | split ] ].
  - cbv zeta. repeat split.
  - cbv zeta. intros [H _]. discriminate H.
Qed.

(** C5, amended.  When a PIN is submitted with the API-key field blank and
    the store holds no record, [handle_submit] shows the status "enter the
    API key for the first login", which is not the status of a wrong PIN;
    the success callback does not run and the file is left without a
    record.  ([validate_pin] alone would answer [False].)  This holds
    whatever the storage does. *)
Theorem pin_on_empty_store_asks_for_key :
  forall (on_auth_success : text -> M unit) (w : world) (k q : text),
    Db.records (disk w) = [] ->
    Py.strip k = [] ->
    Py.strip q <> [] ->
    exists w',
      submit on_auth_success k q w = (Ok tt, w')
      /\ w' = AuthWindow.with_status_text EnterKeyFirstLogin
                (snd (AuthManager.get_credentials (type_in k q w)))
      /\ status_text (form w') = EnterKeyFirstLogin
      /\ status_text (form w') <> InvalidPin
      /\ disk w' = disk w
      /\ app w' = app w
      /\ fst (AuthManager.validate_pin (Py.strip q) w) = Ok false.
Proof.
  intros cb w k q Hr Hk Hq. eexists.
  unfold submit, bind, modify.
  rewrite (handle_submit_no_record_no_key cb (type_in k q w) Hr Hk Hq).
  split; [ reflexivity | split; [ reflexivity | ] ].
  destruct (get_frame (type_in k q w)) as (r & w' & E & Hd & _ & Ha & _).
  rewrite E. cbn. rewrite Hd, Ha. repeat split; [ discriminate | ].
  apply validate_none, Hr.
Qed.

Lemma pin_on_empty_store_asks_for_key_witness :
  exists w',
    submit ChatApp.on_auth_success [] (text_of "0042") wiped = (Ok tt, w')
    /\ w' = AuthWindow.with_status_text EnterKeyFirstLogin
              (snd (AuthManager.get_credentials (type_in [] (text_of "0042") wiped)))
    /\ status_text (form w') = EnterKeyFirstLogin
    /\ status_text (form w') <> InvalidPin
    /\ disk w' = disk wiped
    /\ app w' = app wiped
    /\ fst (AuthManager.validate_pin (Py.strip (text_of "0042")) wiped) = Ok false.
Proof.
  apply (pin_on_empty_store_asks_for_key ChatApp.on_auth_success wiped
           [] (text_of "0042")).
  - reflexivity.
  - reflexivity.
  - discriminate.
Defined.

(** ** C6: nothing entered *)

(** C6 as stated fails: with a record stored, a blank PIN next to a
    non-blank API-key field is sent to the PIN check like any other; the
    status is that of a wrong PIN, and the storage was consulted (a failing
    disk leaves its trace in the log). *)
Lemma blank_pin_with_key_is_invalid_pin :
  stored_record (disk returning) = Some (text_of "sk-abc", text_of "0042")
  /\ Py.strip (text_of "   ") = []
  /\ (let w' := snd (submit ChatApp.on_auth_success
                       (text_of "sk-abc") (text_of "   ") returning) in
      status_text (form w') = InvalidPin /\ status_text (form w') <> EnterKeyOrPin)
  /\ (let w' := snd (submit ChatApp.on_auth_success
                       (text_of "sk-abc") (text_of "   ")
                       (set_faults [None; None; None; None; None; Some "disk I/O error"%string]
                                   returning)) in
      status_text (form w') = InvalidPin
      /\ log w' = [GetFailed "disk I/O error"]
      /\ faults w' = []).
Proof.
  split; [ reflexivity | split; [ reflexivity | split ] ].
  - cbv zeta. split; [ reflexivity | discriminate ].
  - cbv zeta. repeat split.
Qed.

(** C6, amended.  A submission in which the PIN and the API-key field are
    both empty or blank is rejected with the status "enter the API key or
    the PIN", which is not the status of a wrong PIN.  Nothing else
    changes: no call reaches the storage (file, fault schedule and log are
    as before) and the success callback does not run.  This holds in every
    world, so in particular when a record is stored. *)
Theorem nothing_entered_is_rejected_untouched :
  forall (on_auth_success : text -> M unit) (w : world) (k q : text),
    Py.strip k = [] ->
    Py.strip q = [] ->
    submit on_auth_success k q w
    = (Ok tt, AuthWindow.with_status_text EnterKeyOrPin (type_in k q w))
    /\ status_text (form (AuthWindow.with_status_text EnterKeyOrPin (type_in k q w)))
       <> InvalidPin
    /\ disk (AuthWindow.with_status_text EnterKeyOrPin (type_in k q w)) = disk w
    /\ faults (AuthWindow.with_status_text EnterKeyOrPin (type_in k q w)) = faults w
    /\ log (AuthWindow.with_status_text EnterKeyOrPin (type_in k q w)) = log w
    /\ app (AuthWindow.with_status_text EnterKeyOrPin (type_in k q w)) = app w.
Proof.
  intros cb w k q Hk Hq. split.
  - unfold submit, bind, modify.
    apply (handle_submit_nothing_entered cb (type_in k q w)); assumption.
  - cbn. repeat split. discriminate.
Qed.

Lemma nothing_entered_is_rejected_untouched_witness :
  submit ChatApp.on_auth_success [] (text_of "   ") returning
  = (Ok tt, AuthWindow.with_status_text EnterKeyOrPin (type_in [] (text_of "   ") returning))
  /\ status_text (form (AuthWindow.with_status_text EnterKeyOrPin
                          (type_in [] (text_of "   ") returning)))
     <> InvalidPin
  /\ disk (AuthWindow.with_status_text EnterKeyOrPin (type_in [] (text_of "   ") returning))
     = disk returning
  /\ faults (AuthWindow.with_status_text EnterKeyOrPin (type_in [] (text_of "   ") returning))
     = faults returning
  /\ log (AuthWindow.with_status_text EnterKeyOrPin (type_in [] (text_of "   ") returning))
     = log returning
  /\ app (AuthWindow.with_status_text EnterKeyOrPin (type_in [] (text_of "   ") returning))
     = app returning.
Proof.
  apply (nothing_entered_is_rejected_untouched ChatApp.on_auth_success returning
           [] (text_of "   ")).
  - reflexivity.
  - reflexivity.
Defined.

(** ** C7: storage errors stay inside the store *)

Lemma save_fails_on_fault k p w m :
  In (Some m) (firstn 6 (faults w)) ->
  exists w' m',
    AuthManager.save_credentials k p w = (Ok false, w')
    /\ log w' = (log w ++ [SaveFailed m'])%list.
Proof.
  destruct w as [d f c e n l fm a]. unfold_py. cbn [faults log].
  intros H.
  destruct d as [t | ]; cbn; do 6 (try next_fault f);
    insert_cases k p t;
    cbn in H;
    try (do 2 eexists; split; reflexivity);
    exfalso; intuition discriminate.
Qed.

Lemma get_fails_on_fault w m :
  In (Some m) (firstn 5 (faults w)) ->
  exists w' m',
    AuthManager.get_credentials w = (Ok None, w')
    /\ log w' = (log w ++ [GetFailed m'])%list
    /\ disk w' = disk w.
Proof.
  destruct w as [d f c e n l fm a]. unfold_py. cbn [faults log disk].
  intros H.
  destruct d as [t | ]; cbn; do 5 (try next_fault f);
    cbn in H;
    try (do 2 eexists; repeat split; reflexivity);
    exfalso; intuition discriminate.
Qed.

Lemma generate_pin_run w :
  AuthManager.generate_pin w
  = (Ok (Py.zfill 4 (Py.str (entropy w (drawn w) mod 10000))),
     set_drawn (S (drawn w)) w).
Proof. reflexivity. Qed.

(** With a callback that does not raise, [handle_submit] does not raise,
    whatever the storage does. *)
Lemma handle_submit_returns (cb : text -> M unit) w :
  (forall key w0, exists w0', cb key w0 = (Ok tt, w0')) ->
  exists w', AuthWindow.handle_submit cb w = (Ok tt, w').
Proof.
  intros Hcb. unfold AuthWindow.handle_submit, bind, read.
  destruct (AuthWindow.is_empty _ && AuthWindow.is_empty _).
  { eexists. reflexivity. }
  destruct (get_frame w) as (r & w1 & E & _). rewrite E.
  destruct r as [[s p] | ].
  - destruct (validate_frame (Py.strip (pin_input (form w))) w1)
      as (b & w2 & E2 & _).
    rewrite E2. destruct b; [ apply Hcb | eexists; reflexivity ].
  - destruct (AuthWindow.is_empty _).
    { eexists. reflexivity. }
    unfold try_except. rewrite generate_pin_run.
    match goal with
    | |- context [AuthManager.save_credentials ?k ?p ?w0] =>
        destruct (save_frame k p w0) as (b & w2 & E2 & _); rewrite E2
    end.
    destruct b.
    + unfold AuthWindow.set_status_text, AuthWindow.set_status_color,
        AuthWindow.update_async, modify, ret.
      match goal with
      | |- context [cb ?k ?w0] => destruct (Hcb k w0) as (w3 & E3); rewrite E3
      end.
      eexists. reflexivity.
    + eexists. reflexivity.
Qed.

(** C7.  When the storage raises during a save (one of the six [sqlite3]
    calls of the save is scheduled to fail), [save_credentials] returns
    [False] and logs the error; when it raises during a load (one of its
    five calls), [get_credentials] returns [None], logs the error and
    leaves the file alone.  Neither raises.  And [handle_submit], given a
    callback that does not raise, returns normally in every world: no
    storage error reaches the window as an exception. *)
Theorem storage_errors_do_not_escape :
  forall (on_auth_success : text -> M unit) (api_key pin_code : text)
         (ws wl wu : world) (m1 m2 : string),
    In (Some m1) (firstn 6 (faults ws)) ->
    In (Some m2) (firstn 5 (faults wl)) ->
    (forall key w0, exists w0', on_auth_success key w0 = (Ok tt, w0')) ->
    (exists w' m,
       AuthManager.save_credentials api_key pin_code ws = (Ok false, w')
       /\ log w' = (log ws ++ [SaveFailed m])%list)
    /\ (exists w' m,
          AuthManager.get_credentials wl = (Ok None, w')
          /\ log w' = (log wl ++ [GetFailed m])%list
          /\ disk w' = disk wl)
    /\ (exists b w', AuthManager.save_credentials api_key pin_code wu = (Ok b, w'))
    /\ (exists r w', AuthManager.get_credentials wu = (Ok r, w'))
    /\ (exists b w', AuthManager.clear_credentials wu = (Ok b, w'))
    /\ (exists w', AuthWindow.handle_submit on_auth_success wu = (Ok tt, w')).
Proof.
  intros cb k p ws wl wu m1 m2 Hs Hl Hcb.
  split; [ exact (save_fails_on_fault k p ws m1 Hs) | ].
  split; [ exact (get_fails_on_fault wl m2 Hl) | ].
  split.
  { destruct (save_frame k p wu) as (b & w' & E & _). eauto. }
  split.
  { destruct (get_frame wu) as (r & w' & E & _). eauto. }
  split.
  { destruct (clear_frame wu) as (b & w' & E & _). eauto. }
  exact (handle_submit_returns cb wu Hcb).
Qed.

Lemma storage_errors_do_not_escape_witness :
  (exists w' m,
     AuthManager.save_credentials (text_of "sk-abc") (text_of "0042")
       (set_faults [None; None; None; Some "database is locked"%string] returning)
     = (Ok false, w')
     /\ log w' = (log returning ++ [SaveFailed m])%list)
  /\ (exists w' m,
        AuthManager.get_credentials
          (set_faults [Some "unable to open database file"%string] returning)
        = (Ok None, w')
        /\ log w' = (log returning ++ [GetFailed m])%list
        /\ disk w' = disk returning)
  /\ (exists b w',
        AuthManager.save_credentials (text_of "sk-abc") (text_of "0042") fresh = (Ok b, w'))
  /\ (exists r w', AuthManager.get_credentials fresh = (Ok r, w'))
  /\ (exists b w', AuthManager.clear_credentials fresh = (Ok b, w'))
  /\ (exists w', AuthWindow.handle_submit ChatApp.on_auth_success fresh = (Ok tt, w')).
Proof.
  apply (storage_errors_do_not_escape ChatApp.on_auth_success
           (text_of "sk-abc") (text_of "0042")
           (set_faults [None; None; None; Some "database is locked"%string] returning)
           (set_faults [Some "unable to open database file"%string] returning)
           fresh "database is locked" "unable to open database file").
  - simpl. right. right. right. left. reflexivity.
  - simpl. left. reflexivity.
  - intros key w0. eexists. reflexivity.
Defined.

(** ** C8: the format of a generated PIN *)

Lemma every_draw_gives_a_pin :
  forallb pin_ok (map Z.of_nat (seq 0 (Z.to_nat 10000))) = true.
Proof. vm_compute. reflexivity. Qed.

Lemma pin_ok_below n :
  0 <= n < 10000 -> pin_ok n = true.
Proof.
  intros H.
  pose proof every_draw_gives_a_pin as A.
  rewrite forallb_forall in A. apply A.
  apply in_map_iff. exists (Z.to_nat n). split.
  - apply Z2Nat.id. lia.
  - apply in_seq. lia.
Qed.

(** C8.  Every call of [generate_pin] returns (it does not raise) the
    decimal representation of its draw, an integer of [0, 10000), padded
    with zeros to width 4: a string of exactly four characters, each a
    decimal digit, whose value is the draw. *)
Theorem generate_pin_format :
  forall w : world,
    exists (n : Z) (pin : text),
      AuthManager.generate_pin w = (Ok pin, set_drawn (S (drawn w)) w)
      /\ n = entropy w (drawn w) mod 10000
      /\ 0 <= n < 10000
      /\ pin = Py.zfill 4 (Py.str n)
      /\ List.length pin = 4%nat
      /\ forallb Py.isdigit pin = true
      /\ Py.int_of_digits pin = n.
Proof.
  intros w. exists (entropy w (drawn w) mod 10000). eexists.
  split; [ apply generate_pin_run | ].
  assert (Hn : 0 <= entropy w (drawn w) mod 10000 < 10000)
    by (apply Z.mod_pos_bound; lia).
  pose proof (pin_ok_below _ Hn) as Hok. unfold pin_ok in Hok.
  apply andb_prop in Hok. destruct Hok as [Hok Hval].
  apply andb_prop in Hok. destruct Hok as [Hlen Hdig].
  split; [ reflexivity | ].
  split; [ exact Hn | ].
  split; [ reflexivity | ].
  split; [ apply Nat.eqb_eq, Hlen | ].
  split; [ exact Hdig | apply Z.eqb_eq, Hval ].
Qed.

(** ** C9: attempts are independent and write nothing *)

Lemma both_empty k q :
  AuthWindow.is_empty (Py.strip k) && AuthWindow.is_empty (Py.strip q) = true ->
  Py.strip k = [] /\ Py.strip q = [].
Proof.
  destruct (Py.strip k), (Py.strip q); cbn; intros H;
    try discriminate H; auto.
Qed.

(** A submission against a stored record, without storage error, is
    decided by the two fields and the record alone. *)
Lemma submit_stored (cb : text -> M unit) w s p k q :
  faults w = [] ->
  stored_record (disk w) = Some (s, p) ->
  submit cb k q w
  = if AuthWindow.is_empty (Py.strip k) && AuthWindow.is_empty (Py.strip q)
    then (Ok tt, AuthWindow.with_status_text EnterKeyOrPin (type_in k q w))
    else if text_eqb (Py.strip q) p
         then cb s (type_in k q w)
         else (Ok tt, AuthWindow.with_status_text InvalidPin (type_in k q w)).
Proof.
  intros Hf Hs. unfold submit, bind, modify.
  destruct (AuthWindow.is_empty (Py.strip k) && AuthWindow.is_empty (Py.strip q)) eqn:He.
  - destruct (both_empty k q He) as [Hk Hq].
    apply (handle_submit_nothing_entered cb (type_in k q w)); assumption.
  - apply (handle_submit_stored cb (type_in k q w) s p Hf Hs He).
Qed.

Lemma submit_stored_frame w s p k q :
  faults w = [] ->
  stored_record (disk w) = Some (s, p) ->
  disk (snd (submit ChatApp.on_auth_success k q w)) = disk w
  /\ log (snd (submit ChatApp.on_auth_success k q w)) = log w
  /\ faults (snd (submit ChatApp.on_auth_success k q w)) = []
  /\ drawn (snd (submit ChatApp.on_auth_success k q w)) = drawn w.
Proof.
  intros Hf Hs. rewrite (submit_stored _ w s p k q Hf Hs).
  destruct (_ && _); [ | destruct (text_eqb _ p) ]; cbn; auto.
Qed.

Lemma submissions_frame l :
  forall w s p,
    faults w = [] ->
    stored_record (disk w) = Some (s, p) ->
    disk (submissions l w) = disk w
    /\ log (submissions l w) = log w
    /\ faults (submissions l w) = []
    /\ drawn (submissions l w) = drawn w.
Proof.
  induction l as [ | [k q] l IH ]; intros w s p Hf Hs; cbn [submissions].
  - auto.
  - destruct (submit_stored_frame w s p k q Hf Hs) as (Hd & Hl & Hf' & Hn).
    destruct (IH (snd (submit ChatApp.on_auth_success k q w)) s p Hf') as (A & B & C & D).
    { rewrite Hd. exact Hs. }
    rewrite A, B, C, D. auto.
Qed.

(** Whatever the storage does: a submission that ends on the status
    "invalid PIN" has not written the file. *)
Lemma invalid_pin_writes_nothing w :
  status_text (form (snd (AuthWindow.handle_submit ChatApp.on_auth_success w)))
  = InvalidPin ->
  disk (snd (AuthWindow.handle_submit ChatApp.on_auth_success w)) = disk w.
Proof.
  unfold AuthWindow.handle_submit, bind, read.
  destruct (AuthWindow.is_empty _ && AuthWindow.is_empty _).
  { reflexivity. }
  destruct (get_frame w) as (r & w1 & E & Hd1 & _). rewrite E.
  destruct r as [[s p] | ].
  - destruct (validate_frame (Py.strip (pin_input (form w))) w1)
      as (b & w2 & E2 & Hd2 & _).
    rewrite E2. destruct b; cbn; congruence.
  - destruct (AuthWindow.is_empty _).
    { cbn. discriminate. }
    unfold try_except. rewrite generate_pin_run.
    match goal with
    | |- context [AuthManager.save_credentials ?k ?p ?w0] =>
        destruct (save_frame k p w0) as (b & w2 & E2 & _); rewrite E2
    end.
    destruct b; cbn; discriminate.
Qed.

(** C9.  (1) Whatever the storage does, a submission that is rejected as
    an invalid PIN leaves the file as it was, and so does every call of
    [validate_pin].  (2) With a record (s, p) stored and no storage error,
    any sequence of earlier submissions, accepted or rejected, leaves the
    file, the log, and the random source as they were: nothing counts the
    attempts.  After them the verdict of [validate_pin] on [q] is the
    comparison of [q] with [p], the same as before them, and a submission
    is decided by what is in the two fields and by the stored record. *)
Theorem attempts_are_independent :
  forall (l : list (text * text)) (w w0 : world) (s p k q k0 q0 : text),
    faults w = [] ->
    stored_record (disk w) = Some (s, p) ->
    status_text (form (snd (submit ChatApp.on_auth_success k0 q0 w0))) = InvalidPin ->
    disk (snd (submit ChatApp.on_auth_success k0 q0 w0)) = disk w0
    /\ disk (snd (AuthManager.validate_pin q0 w0)) = disk w0
    /\ disk (submissions l w) = disk w
    /\ log (submissions l w) = log w
    /\ drawn (submissions l w) = drawn w
    /\ AuthManager.validate_pin q (submissions l w)
       = (Ok (text_eqb q p), submissions l w)
    /\ fst (AuthManager.validate_pin q (submissions l w))
       = fst (AuthManager.validate_pin q w)
    /\ submit ChatApp.on_auth_success k q (submissions l w)
       = if AuthWindow.is_empty (Py.strip k) && AuthWindow.is_empty (Py.strip q)
         then (Ok tt, AuthWindow.with_status_text EnterKeyOrPin
                        (type_in k q (submissions l w)))
         else if text_eqb (Py.strip q) p
              then ChatApp.on_auth_success s (type_in k q (submissions l w))
              else (Ok tt, AuthWindow.with_status_text InvalidPin
                             (type_in k q (submissions l w))).
Proof.
  intros l w w0 s p k q k0 q0 Hf Hs H0.
  destruct (submissions_frame l w s p Hf Hs) as (Hd & Hl & Hf' & Hn).
  assert (Hs' : stored_record (disk (submissions l w)) = Some (s, p))
    by (rewrite Hd; exact Hs).
  split.
  { unfold submit, bind, modify in *.
    apply (invalid_pin_writes_nothing (type_in k0 q0 w0)) in H0. exact H0. }
  split.
  { destruct (validate_frame q0 w0) as (b & w' & E & Hd0 & _).
    rewrite E. exact Hd0. }
  split; [ exact Hd | ]. split; [ exact Hl | ]. split; [ exact Hn | ].
  split; [ exact (validate_quiet q _ s p Hf' Hs') | ].
  split.
  { rewrite (validate_quiet q _ s p Hf' Hs'), (validate_quiet q w s p Hf Hs).
    reflexivity. }
  exact (submit_stored _ _ s p k q Hf' Hs').
Qed.

Lemma attempts_are_independent_witness :
  let l := [([], text_of "0000"); ([], text_of "1234"); ([], text_of "0042");
            (text_of "sk-abc", []); ([], text_of "9999")] in
  let w0 := set_faults [None; None; None; None; None; Some "disk I/O error"%string]
                       returning in
  disk (snd (submit ChatApp.on_auth_success [] (text_of "0042") w0)) = disk w0
  /\ disk (snd (AuthManager.validate_pin (text_of "0042") w0)) = disk w0
  /\ disk (submissions l returning) = disk returning
  /\ log (submissions l returning) = log returning
  /\ drawn (submissions l returning) = drawn returning
  /\ AuthManager.validate_pin (text_of "0042") (submissions l returning)
     = (Ok (text_eqb (text_of "0042") (text_of "0042")), submissions l returning)
  /\ fst (AuthManager.validate_pin (text_of "0042") (submissions l returning))
     = fst (AuthManager.validate_pin (text_of "0042") returning)
  /\ submit ChatApp.on_auth_success [] (text_of "0042") (submissions l returning)
     = if AuthWindow.is_empty (Py.strip [])
          && AuthWindow.is_empty (Py.strip (text_of "0042"))
       then (Ok tt, AuthWindow.with_status_text EnterKeyOrPin
                      (type_in [] (text_of "0042") (submissions l returning)))
       else if text_eqb (Py.strip (text_of "0042")) (text_of "0042")
            then ChatApp.on_auth_success (text_of "sk-abc")
                   (type_in [] (text_of "0042") (submissions l returning))
            else (Ok tt, AuthWindow.with_status_text InvalidPin
                           (type_in [] (text_of "0042") (submissions l returning))).
Proof.
  intros l w0.
  apply (attempts_are_independent l returning w0
           (text_of "sk-abc") (text_of "0042") [] (text_of "0042") [] (text_of "0042")).
  - reflexivity.
  - reflexivity.
  - reflexivity.
Defined.

(** * Further properties of the code *)

Ltac unfold_ui :=
  unfold AuthWindowLifecycle.handle_reset, ChatAppFlow.on_reset_requested,
    ChatAppFlow.main, ChatAppFlow.show_auth_window, ChatAppFlow.__init__,
    AuthWindowLifecycle.__init__, AuthWindowLifecycle.show,
    ChatApp.on_auth_success, ChatApp.init_after_auth, rejecting_callback in *.

(** ** Initialisation and the missing table *)

Lemma init_quiet w :
  faults w = [] ->
  AuthManager.init_db w = (Ok tt, set_disk (Db.create_if_not_exists (disk w)) w).
Proof.
  destruct w as [d f c e n l fm a]. cbn. intros ->.
  unfold_py. destruct d; reflexivity.
Qed.

(** X1.  Whatever the storage does, [init_db] returns normally and keeps
    every row of the table: starting the application again (each
    [AuthManager()] runs it) never loses the stored credentials. *)
Theorem init_db_keeps_the_records :
  forall w : world,
    fst (AuthManager.init_db w) = Ok tt
    /\ Db.records (disk (snd (AuthManager.init_db w))) = Db.records (disk w)
    /\ stored_record (disk (snd (AuthManager.init_db w))) = stored_record (disk w)
    /\ form (snd (AuthManager.init_db w)) = form w
    /\ app (snd (AuthManager.init_db w)) = app w.
Proof.
  intros w. destruct (init_frame w) as (w' & E & Hf & Ha & Hd).
  rewrite E. cbn [fst snd]. split; [ reflexivity | ].
  destruct Hd as [Hd | Hd]; rewrite Hd, Hf, Ha.
  - auto.
  - destruct (disk w); cbn; auto.
Qed.

Lemma get_no_table w :
  disk w = None -> faults w = [] ->
  AuthManager.get_credentials w
  = (Ok None, set_log (log w ++ [GetFailed "no such table: auth"]) w).
Proof.
  destruct w as [d f c e n l fm a]. cbn. intros -> ->. reflexivity.
Qed.

Lemma save_no_table k p w :
  disk w = None -> faults w = [] ->
  AuthManager.save_credentials k p w
  = (Ok false, set_log (log w ++ [SaveFailed "no such table: auth"]) w).
Proof.
  destruct w as [d f c e n l fm a]. cbn. intros -> ->. reflexivity.
Qed.

(** X2.  On a file that has no table [auth] (and without any other storage
    error) the three methods fail softly: [save_credentials] and
    [clear_credentials] return [False], [get_credentials] returns [None],
    each logs "no such table: auth" and the file stays as it is, whatever
    the strings.  After [init_db] the table is there and empty; a save of
    two storable strings then returns [True] and the load returns the
    saved pair, a save of other strings returns [False]. *)
Theorem missing_table_fails_softly_until_init :
  forall (api_key pin_code : text) (w : world),
    disk w = None ->
    faults w = [] ->
    AuthManager.save_credentials api_key pin_code w
    = (Ok false, set_log (log w ++ [SaveFailed "no such table: auth"]) w)
    /\ AuthManager.clear_credentials w
       = (Ok false, set_log (log w ++ [ClearFailed "no such table: auth"]) w)
    /\ AuthManager.get_credentials w
       = (Ok None, set_log (log w ++ [GetFailed "no such table: auth"]) w)
    /\ disk (snd (AuthManager.init_db w)) = Some (Db.mkTable [] 0)
    /\ (if storable api_key pin_code
        then fst (AuthManager.save_credentials api_key pin_code
                    (snd (AuthManager.init_db w)))
             = Ok true
             /\ fst (AuthManager.get_credentials
                       (snd (AuthManager.save_credentials api_key pin_code
                               (snd (AuthManager.init_db w)))))
                = Ok (Some (api_key, pin_code))
        else fst (AuthManager.save_credentials api_key pin_code
                    (snd (AuthManager.init_db w)))
             = Ok false).
Proof.
  intros k p w Hd Hf.
  rewrite (init_quiet w Hf), Hd. cbn [snd Db.create_if_not_exists].
  assert (Hlast :
    if storable k p
    then fst (AuthManager.save_credentials k p (set_disk (Some (Db.mkTable [] 0)) w))
         = Ok true
         /\ fst (AuthManager.get_credentials
                   (snd (AuthManager.save_credentials k p
                           (set_disk (Some (Db.mkTable [] 0)) w))))
            = Ok (Some (k, p))
    else fst (AuthManager.save_credentials k p (set_disk (Some (Db.mkTable [] 0)) w))
         = Ok false).
  { destruct (storable k p) eqn:Hst.
    - assert (Hs : AuthManager.save_credentials k p (set_disk (Some (Db.mkTable [] 0)) w)
                   = (Ok true,
                      set_disk (Some (saved_table (clock w) k p (Db.mkTable [] 0)))
                               (set_disk (Some (Db.mkTable [] 0)) w))).
      { apply (save_quiet k p (set_disk (Some (Db.mkTable [] 0)) w) (Db.mkTable [] 0));
          [ exact Hf | reflexivity | reflexivity | exact Hst ]. }
      rewrite Hs. cbn [fst snd].
      rewrite (load_after_save k p _ _ Hs Hf). split; reflexivity.
    - destruct (save_unstorable k p (set_disk (Some (Db.mkTable [] 0)) w)
                  (Db.mkTable [] 0) Hf eq_refl Hst) as (m & Hs).
      rewrite Hs. reflexivity. }
  split; [ apply save_no_table; assumption | ].
  split; [ | split; [ apply get_no_table; assumption | ] ].
  - destruct w as [d f c e n l fm a]. cbn in Hd, Hf. subst d f. reflexivity.
  - split; [ reflexivity | exact Hlast ].
Qed.

Lemma missing_table_fails_softly_until_init_witness :
  AuthManager.save_credentials (text_of "sk-abc") (text_of "0042") uninitialised
  = (Ok false, set_log (log uninitialised ++ [SaveFailed "no such table: auth"])
                       uninitialised)
  /\ AuthManager.clear_credentials uninitialised
     = (Ok false, set_log (log uninitialised ++ [ClearFailed "no such table: auth"])
                          uninitialised)
  /\ AuthManager.get_credentials uninitialised
     = (Ok None, set_log (log uninitialised ++ [GetFailed "no such table: auth"])
                         uninitialised)
  /\ disk (snd (AuthManager.init_db uninitialised)) = Some (Db.mkTable [] 0)
  /\ fst (AuthManager.save_credentials (text_of "sk-abc") (text_of "0042")
            (snd (AuthManager.init_db uninitialised)))
     = Ok true
  /\ fst (AuthManager.get_credentials
            (snd (AuthManager.save_credentials (text_of "sk-abc") (text_of "0042")
                    (snd (AuthManager.init_db uninitialised)))))
     = Ok (Some (text_of "sk-abc", text_of "0042")).
Proof.
  apply (missing_table_fails_softly_until_init
           (text_of "sk-abc") (text_of "0042") uninitialised).
  - reflexivity.
  - reflexivity.
Defined.

(** ** Clearing *)

Lemma clear_true w w' :
  AuthManager.clear_credentials w = (Ok true, w') ->
  exists t, disk w = Some t /\ disk w' = Some (Db.delete_all t).
Proof.
  destruct w as [d f c e n l fm a]. unfold_py.
  destruct d as [t | ]; cbn; do 5 (try next_fault f); intros H;
    try discriminate H; injection H as <-; eexists; split; reflexivity.
Qed.

Lemma clear_quiet w t :
  faults w = [] -> disk w = Some t ->
  AuthManager.clear_credentials w = (Ok true, set_disk (Some (Db.delete_all t)) w).
Proof.
  destruct w as [d f c e n l fm a]. cbn. intros -> ->.
  unfold_py. reflexivity.
Qed.

(** X3.  After a [clear_credentials] that returned [True] the table is
    empty: whatever the storage does next, a load returns [None] and no
    PIN at all is accepted. *)
Theorem cleared_store_accepts_no_pin :
  forall (w w' : world) (q : text),
    AuthManager.clear_credentials w = (Ok true, w') ->
    Db.records (disk w') = []
    /\ fst (AuthManager.get_credentials w') = Ok None
    /\ fst (AuthManager.validate_pin q w') = Ok false.
Proof.
  intros w w' q H. destruct (clear_true w w' H) as (t & _ & Hd).
  assert (Hr : Db.records (disk w') = []) by (rewrite Hd; reflexivity).
  split; [ exact Hr | ].
  split; [ apply get_none, Hr | apply validate_none, Hr ].
Qed.

Lemma cleared_store_accepts_no_pin_witness :
  Db.records (disk (snd (AuthManager.clear_credentials returning))) = []
  /\ fst (AuthManager.get_credentials (snd (AuthManager.clear_credentials returning)))
     = Ok None
  /\ fst (AuthManager.validate_pin (text_of "0042")
            (snd (AuthManager.clear_credentials returning)))
     = Ok false.
Proof.
  apply (cleared_store_accepts_no_pin returning _ (text_of "0042")).
  reflexivity.
Defined.

(** X4.  Clearing is idempotent where the table exists: without storage
    error [clear_credentials] returns [True] on a store that holds a
    record and again on the store it has just emptied; the second call
    changes nothing, and the id counter of the table survives both. *)
Theorem clear_is_idempotent :
  forall (w : world) (t : Db.table),
    faults w = [] ->
    disk w = Some t ->
    AuthManager.clear_credentials w
    = (Ok true, set_disk (Some (Db.mkTable [] (Db.seq t))) w)
    /\ AuthManager.clear_credentials (snd (AuthManager.clear_credentials w))
       = (Ok true, snd (AuthManager.clear_credentials w)).
Proof.
  intros w t Hf Hd.
  rewrite (clear_quiet w t Hf Hd). split; [ reflexivity | ].
  cbn [snd].
  rewrite (clear_quiet _ (Db.delete_all t)); [ | exact Hf | reflexivity ].
  destruct w; reflexivity.
Qed.

Lemma clear_is_idempotent_witness :
  AuthManager.clear_credentials returning
  = (Ok true, set_disk (Some (Db.mkTable [] 1)) returning)
  /\ AuthManager.clear_credentials (snd (AuthManager.clear_credentials returning))
     = (Ok true, snd (AuthManager.clear_credentials returning)).
Proof.
  apply (clear_is_idempotent returning
           (Db.mkTable [Db.mkRow 1 (text_of "sk-abc") (text_of "0042") 0%nat] 1)).
  - reflexivity.
  - reflexivity.
Defined.

(** ** The first login *)

Section FirstLogin.

Variable on_auth_success : text -> M unit.

(** Once the load has found nothing, a submission with a key runs the
    first-login branch: draw, save, show, call back. *)
Lemma first_login_run k q w w0 t :
  Py.strip k <> [] ->
  AuthManager.get_credentials (type_in k q w) = (Ok None, w0) ->
  faults w0 = [] ->
  disk w0 = Some t ->
  has_room t ->
  storable (Py.strip k) (next_pin w0) = true ->
  submit on_auth_success k q w
  = try_except (on_auth_success (Py.strip k))
      (fun ex => AuthWindow.set_status_text (InvalidApiKey ex) ;;
                 AuthWindow.update_async)
      (enrolled_world (Py.strip k) t w0).
Proof.
  intros Hk Hget Hf Hd Hr Hst.
  unfold submit, bind at 1, modify.
  unfold AuthWindow.handle_submit, bind, read.
  cbn [type_in form set_form api_key_input pin_input].
  destruct (Py.strip k) as [ | c key ] eqn:Ek; [ congruence | ].
  cbn [AuthWindow.is_empty andb].
  fold (type_in k q w). rewrite Hget.
  unfold try_except. rewrite generate_pin_run.
  unfold next_pin in Hst.
  rewrite (save_quiet (c :: key) _ (set_drawn (S (drawn w0)) w0) t Hf Hd Hr Hst).
  reflexivity.
Qed.

End FirstLogin.

Lemma get_empty_quiet w t :
  faults w = [] -> disk w = Some t -> Db.rows t = [] ->
  AuthManager.get_credentials w = (Ok None, w).
Proof.
  intros Hf Hd Hr. rewrite (get_quiet w t Hf Hd), Hd.
  destruct t as [rs sq]. cbn in Hr. subst rs. reflexivity.
Qed.

(** X5.  First login.  On a store whose table is empty, without storage
    error, a submission with a non-blank API key that sqlite3 can store
    (whatever is in the PIN field) draws a PIN, stores the trimmed key
    together with that PIN, shows that same PIN in green and only then
    calls the success callback, whatever it is, with the trimmed key; an
    [Exception] of the callback goes to the handler that shows "invalid API
    key".  In the world handed to the callback nothing else has changed,
    and the PIN shown is the one [validate_pin] accepts. *)
Theorem first_login_stores_the_shown_pin :
  forall (on_auth_success : text -> M unit) (k q : text) (w : world) (t : Db.table),
    faults w = [] ->
    disk w = Some t ->
    Db.rows t = [] ->
    has_room t ->
    Py.strip k <> [] ->
    storable (Py.strip k) (next_pin w) = true ->
    submit on_auth_success k q w
    = try_except (on_auth_success (Py.strip k))
        (fun ex => AuthWindow.set_status_text (InvalidApiKey ex) ;;
                   AuthWindow.update_async)
        (enrolled_world (Py.strip k) t (type_in k q w))
    /\ stored_record (disk (enrolled_world (Py.strip k) t (type_in k q w)))
       = Some (Py.strip k, next_pin w)
    /\ status_text (form (enrolled_world (Py.strip k) t (type_in k q w)))
       = PinGenerated (next_pin w)
    /\ status_color (form (enrolled_world (Py.strip k) t (type_in k q w))) = GREEN_400
    /\ app (enrolled_world (Py.strip k) t (type_in k q w)) = app w
    /\ log (enrolled_world (Py.strip k) t (type_in k q w)) = log w
    /\ drawn (enrolled_world (Py.strip k) t (type_in k q w)) = S (drawn w)
    /\ AuthManager.validate_pin (next_pin w)
         (enrolled_world (Py.strip k) t (type_in k q w))
       = (Ok true, enrolled_world (Py.strip k) t (type_in k q w)).
Proof.
  intros cb k q w t Hf Hd Hr Hroom Hk Hst.
  rewrite (first_login_run cb k q w (type_in k q w) t Hk
             (get_empty_quiet (type_in k q w) t Hf Hd Hr) Hf Hd Hroom Hst).
  split; [ reflexivity | ].
  do 6 (split; [ reflexivity | ]).
  rewrite (validate_quiet _ _ (Py.strip k) (next_pin w)); [ | exact Hf | reflexivity ].
  change (next_pin (type_in k q w)) with (next_pin w).
  rewrite text_eqb_refl. reflexivity.
Qed.

Lemma first_login_stores_the_shown_pin_witness :
  submit (rejecting_callback "401 Unauthorized") (text_of " sk-new ") (text_of "9999") wiped
  = try_except (rejecting_callback "401 Unauthorized" (Py.strip (text_of " sk-new ")))
      (fun ex => AuthWindow.set_status_text (InvalidApiKey ex) ;;
                 AuthWindow.update_async)
      (enrolled_world (Py.strip (text_of " sk-new ")) (Db.mkTable [] 1)
         (type_in (text_of " sk-new ") (text_of "9999") wiped))
  /\ stored_record
       (disk (enrolled_world (Py.strip (text_of " sk-new ")) (Db.mkTable [] 1)
                (type_in (text_of " sk-new ") (text_of "9999") wiped)))
     = Some (Py.strip (text_of " sk-new "), next_pin wiped)
  /\ status_text
       (form (enrolled_world (Py.strip (text_of " sk-new ")) (Db.mkTable [] 1)
                (type_in (text_of " sk-new ") (text_of "9999") wiped)))
     = PinGenerated (next_pin wiped)
  /\ status_color
       (form (enrolled_world (Py.strip (text_of " sk-new ")) (Db.mkTable [] 1)
                (type_in (text_of " sk-new ") (text_of "9999") wiped)))
     = GREEN_400
  /\ app (enrolled_world (Py.strip (text_of " sk-new ")) (Db.mkTable [] 1)
            (type_in (text_of " sk-new ") (text_of "9999") wiped))
     = app wiped
  /\ log (enrolled_world (Py.strip (text_of " sk-new ")) (Db.mkTable [] 1)
            (type_in (text_of " sk-new ") (text_of "9999") wiped))
     = log wiped
  /\ drawn (enrolled_world (Py.strip (text_of " sk-new ")) (Db.mkTable [] 1)
              (type_in (text_of " sk-new ") (text_of "9999") wiped))
     = S (drawn wiped)
  /\ AuthManager.validate_pin (next_pin wiped)
       (enrolled_world (Py.strip (text_of " sk-new ")) (Db.mkTable [] 1)
          (type_in (text_of " sk-new ") (text_of "9999") wiped))
     = (Ok true,
        enrolled_world (Py.strip (text_of " sk-new ")) (Db.mkTable [] 1)
          (type_in (text_of " sk-new ") (text_of "9999") wiped)).
Proof.
  apply (first_login_stores_the_shown_pin (rejecting_callback "401 Unauthorized")
           (text_of " sk-new ") (text_of "9999") wiped (Db.mkTable [] 1)).
  - reflexivity.
  - reflexivity.
  - reflexivity.
  - reflexivity.
  - discriminate.
  - reflexivity.
Defined.



(** X7.  When the table is missing ([init_db] had failed) a first login
    cannot be saved: the status is "save error", the success callback is
    not called (whatever it is), nobody is authenticated and nothing is on
    file; the failed load and the failed save are both in the log. *)
Theorem first_login_without_table_reports_save_error :
  forall (on_auth_success : text -> M unit) (k q : text) (w : world),
    disk w = None ->
    faults w = [] ->
    Py.strip k <> [] ->
    fst (submit on_auth_success k q w) = Ok tt
    /\ status_text (form (snd (submit on_auth_success k q w))) = SaveError
    /\ disk (snd (submit on_auth_success k q w)) = None
    /\ app (snd (submit on_auth_success k q w)) = app w
    /\ log (snd (submit on_auth_success k q w))
       = (log w ++ [GetFailed "no such table: auth"; SaveFailed "no such table: auth"])%list.
Proof.
  intros cb k q w Hd Hf Hk.
  unfold submit, bind at 1, modify.
  unfold AuthWindow.handle_submit, bind, read.
  cbn [type_in form set_form api_key_input pin_input].
  destruct (Py.strip k) as [ | c0 key ]; [ congruence | ].
  cbn [AuthWindow.is_empty andb].
  fold (type_in k q w).
  rewrite (get_no_table (type_in k q w) Hd Hf).
  unfold try_except. rewrite generate_pin_run.
  rewrite save_no_table; [ | exact Hd | exact Hf ].
  cbn. rewrite <- app_assoc. repeat split. exact Hd.
Qed.

Lemma first_login_without_table_reports_save_error_witness :
  fst (submit ChatApp.on_auth_success (text_of "sk-abc") [] uninitialised) = Ok tt
  /\ status_text (form (snd (submit ChatApp.on_auth_success (text_of "sk-abc") [] uninitialised)))
     = SaveError
  /\ disk (snd (submit ChatApp.on_auth_success (text_of "sk-abc") [] uninitialised)) = None
  /\ app (snd (submit ChatApp.on_auth_success (text_of "sk-abc") [] uninitialised))
     = app uninitialised
  /\ log (snd (submit ChatApp.on_auth_success (text_of "sk-abc") [] uninitialised))
     = (log uninitialised
        ++ [GetFailed "no such table: auth"; SaveFailed "no such table: auth"])%list.
Proof.
  apply (first_login_without_table_reports_save_error ChatApp.on_auth_success
           (text_of "sk-abc") [] uninitialised).
  - reflexivity.
  - reflexivity.
  - discriminate.
Defined.

(** ** Storage errors seen from the form *)

Lemma get_first_fault w m rest :
  faults w = Some m :: rest ->
  AuthManager.get_credentials w
  = (Ok None, set_log (log w ++ [GetFailed m]) (set_faults rest w)).
Proof.
  destruct w as [d f c e n l fm a]. cbn. intros ->. reflexivity.
Qed.

Lemma get_five_calls w t rest :
  faults w = None :: None :: None :: None :: None :: rest ->
  disk w = Some t ->
  AuthManager.get_credentials w = (Ok (stored_record (disk w)), set_faults rest w).
Proof.
  destruct w as [d f c e n l fm a]. cbn. intros -> ->. reflexivity.
Qed.

(** X8.  A load that fails makes [handle_submit] take a returning user for
    a new one.  If the first [sqlite3] call of the submission raises and
    nothing fails after it, then, whatever record the table holds and
    whatever the success callback is: with a non-blank, storable API key
    the record is replaced by that key and a new PIN, the new PIN is shown,
    and the callback is called with the key without any PIN check (no PIN
    was compared: the one typed plays no part); with a blank key and a PIN
    entered, the status asks for the API key of a first login, the callback
    is not called and the file is left alone. *)
Theorem failed_load_is_taken_for_first_login :
  forall (on_auth_success : text -> M unit) (m : string)
         (k q k2 q2 : text) (w : world) (t : Db.table),
    faults w = [Some m] ->
    disk w = Some t ->
    has_room t ->
    Py.strip k <> [] ->
    Py.strip k2 = [] ->
    Py.strip q2 <> [] ->
    storable (Py.strip k) (next_pin w) = true ->
    (submit on_auth_success k q w
     = try_except (on_auth_success (Py.strip k))
         (fun ex => AuthWindow.set_status_text (InvalidApiKey ex) ;;
                    AuthWindow.update_async)
         (enrolled_world (Py.strip k) t
            (set_log (log w ++ [GetFailed m]) (set_faults [] (type_in k q w))))
     /\ stored_record
          (disk (enrolled_world (Py.strip k) t
                   (set_log (log w ++ [GetFailed m]) (set_faults [] (type_in k q w)))))
        = Some (Py.strip k, next_pin w)
     /\ status_text
          (form (enrolled_world (Py.strip k) t
                   (set_log (log w ++ [GetFailed m]) (set_faults [] (type_in k q w)))))
        = PinGenerated (next_pin w)
     /\ app (enrolled_world (Py.strip k) t
               (set_log (log w ++ [GetFailed m]) (set_faults [] (type_in k q w))))
        = app w
     /\ log (enrolled_world (Py.strip k) t
               (set_log (log w ++ [GetFailed m]) (set_faults [] (type_in k q w))))
        = (log w ++ [GetFailed m])%list)
    /\ (fst (submit on_auth_success k2 q2 w) = Ok tt
        /\ status_text (form (snd (submit on_auth_success k2 q2 w)))
           = EnterKeyFirstLogin
        /\ disk (snd (submit on_auth_success k2 q2 w)) = disk w
        /\ app (snd (submit on_auth_success k2 q2 w)) = app w).
Proof.
  intros cb m k q k2 q2 w t Hf Hd Hroom Hk Hk2 Hq2 Hst. split.
  - rewrite (first_login_run cb k q w _ t Hk
               (get_first_fault (type_in k q w) m [] Hf));
      [ | reflexivity | exact Hd | exact Hroom | exact Hst ].
    split; [ reflexivity | ]. repeat split.
  - unfold submit, bind at 1, modify.
    unfold AuthWindow.handle_submit, bind, read.
    cbn [type_in form set_form api_key_input pin_input].
    rewrite Hk2. destruct (Py.strip q2); [ congruence | ].
    cbn [AuthWindow.is_empty andb].
    fold (type_in k2 q2 w).
    rewrite (get_first_fault (type_in k2 q2 w) m [] Hf). cbn. repeat split.
Qed.

Lemma failed_load_is_taken_for_first_login_witness :
  let w := set_faults [Some "database is locked"%string] returning in
  let t := Db.mkTable [Db.mkRow 1 (text_of "sk-abc") (text_of "0042") 0%nat] 1 in
  let w0 := set_log (log w ++ [GetFailed "database is locked"])
              (set_faults [] (type_in (text_of "sk-other") [] w)) in
  (submit ChatApp.on_auth_success (text_of "sk-other") [] w
   = try_except (ChatApp.on_auth_success (Py.strip (text_of "sk-other")))
       (fun ex => AuthWindow.set_status_text (InvalidApiKey ex) ;;
                  AuthWindow.update_async)
       (enrolled_world (Py.strip (text_of "sk-other")) t w0)
   /\ stored_record (disk (enrolled_world (Py.strip (text_of "sk-other")) t w0))
      = Some (Py.strip (text_of "sk-other"), next_pin w)
   /\ status_text (form (enrolled_world (Py.strip (text_of "sk-other")) t w0))
      = PinGenerated (next_pin w)
   /\ app (enrolled_world (Py.strip (text_of "sk-other")) t w0) = app w
   /\ log (enrolled_world (Py.strip (text_of "sk-other")) t w0)
      = (log w ++ [GetFailed "database is locked"])%list)
  /\ (fst (submit ChatApp.on_auth_success [] (text_of "0042") w) = Ok tt
      /\ status_text (form (snd (submit ChatApp.on_auth_success [] (text_of "0042") w)))
         = EnterKeyFirstLogin
      /\ disk (snd (submit ChatApp.on_auth_success [] (text_of "0042") w)) = disk w
      /\ app (snd (submit ChatApp.on_auth_success [] (text_of "0042") w)) = app w).
Proof.
  intros w t w0.
  apply (failed_load_is_taken_for_first_login ChatApp.on_auth_success
           "database is locked"
           (text_of "sk-other") [] [] (text_of "0042") w t).
  - reflexivity.
  - reflexivity.
  - reflexivity.
  - discriminate.
  - reflexivity.
  - discriminate.
  - reflexivity.
Defined.

(** X9.  A storage error during the PIN check counts as a wrong PIN.
    [validate_pin] answers [False] for every input, the stored PIN
    included, as soon as one of the five calls of its load fails.  In
    [handle_submit], when the first load works and the load inside
    [validate_pin] fails, the right PIN gets the status "invalid PIN", the
    callback does not run and the file is left alone. *)
Theorem storage_error_rejects_the_right_pin :
  forall (on_auth_success : text -> M unit) (m0 m : string)
         (k q q0 s p : text) (w0 w : world),
    In (Some m0) (firstn 5 (faults w0)) ->
    faults w = [None; None; None; None; None; Some m] ->
    stored_record (disk w) = Some (s, p) ->
    Py.strip q = p ->
    Py.strip q <> [] ->
    fst (AuthManager.validate_pin q0 w0) = Ok false
    /\ fst (submit on_auth_success k q w) = Ok tt
    /\ status_text (form (snd (submit on_auth_success k q w))) = InvalidPin
    /\ app (snd (submit on_auth_success k q w)) = app w
    /\ disk (snd (submit on_auth_success k q w)) = disk w
    /\ log (snd (submit on_auth_success k q w)) = (log w ++ [GetFailed m])%list.
Proof.
  intros cb m0 m k q q0 s p w0 w H0 Hf Hs Hq Hne. split.
  - destruct (get_fails_on_fault w0 m0 H0) as (w' & m' & E & _).
    unfold AuthManager.validate_pin, bind. rewrite E. reflexivity.
  - destruct (disk w) as [t | ] eqn:Hd; [ | discriminate ].
    unfold submit, bind at 1, modify.
    unfold AuthWindow.handle_submit, bind, read.
    cbn [type_in form set_form api_key_input pin_input].
    destruct (Py.strip q) as [ | c0 pin ] eqn:Eq; [ congruence | ].
    rewrite andb_false_r. fold (type_in k q w).
    rewrite (get_five_calls (type_in k q w) t [Some m] Hf Hd).
    cbn [disk type_in set_form]. rewrite Hd, Hs.
    unfold AuthManager.validate_pin, bind.
    rewrite (get_first_fault _ m []); [ | reflexivity ].
    cbn. rewrite Hd. repeat split.
Qed.

Lemma storage_error_rejects_the_right_pin_witness :
  let w := set_faults [None; None; None; None; None; Some "disk I/O error"%string]
                      returning in
  fst (AuthManager.validate_pin (text_of "0042")
         (set_faults [None; None; Some "database is locked"%string] returning))
  = Ok false
  /\ fst (submit ChatApp.on_auth_success [] (text_of "0042") w) = Ok tt
  /\ status_text (form (snd (submit ChatApp.on_auth_success [] (text_of "0042") w)))
     = InvalidPin
  /\ app (snd (submit ChatApp.on_auth_success [] (text_of "0042") w)) = app w
  /\ disk (snd (submit ChatApp.on_auth_success [] (text_of "0042") w)) = disk w
  /\ log (snd (submit ChatApp.on_auth_success [] (text_of "0042") w))
     = (log w ++ [GetFailed "disk I/O error"])%list.
Proof.
  intros w.
  apply (storage_error_rejects_the_right_pin ChatApp.on_auth_success
           "database is locked" "disk I/O error"
           [] (text_of "0042") (text_of "0042") (text_of "sk-abc") (text_of "0042")
           (set_faults [None; None; Some "database is locked"%string] returning) w).
  - simpl. right. right. left. reflexivity.
  - reflexivity.
  - reflexivity.
  - reflexivity.
  - discriminate.
Defined.

(** ** Reset and start-up *)

Lemma show_auth_window_quiet w t :
  faults w = [] -> disk w = Some t ->
  ChatAppFlow.show_auth_window w
  = (Ok (match stored_record (disk w) with
         | Some _ => FocusPin
         | None => FocusApiKey
         end),
     set_form new_window w).
Proof.
  intros Hf Hd.
  unfold ChatAppFlow.show_auth_window, AuthWindowLifecycle.__init__,
    AuthWindowLifecycle.show, AuthManager.__init__, bind, modify.
  rewrite (init_quiet w Hf), Hd. cbn [Db.create_if_not_exists].
  replace (set_disk (Some t) w) with w by (destruct w; cbn in Hd; subst; reflexivity).
  rewrite (get_quiet (set_form _ w) t Hf Hd). cbn [disk set_form].
  rewrite ?Hd. destruct (stored_record (Some t)); reflexivity.
Qed.

(** X10.  Reset.  Without storage error, [handle_reset] with the callback
    of main.py empties the table, shows a new, empty window and gives the
    focus to the API-key field; from then on no PIN is accepted, the
    previous one included. *)
Theorem reset_empties_the_store :
  forall (w : world) (t : Db.table) (q : text),
    faults w = [] ->
    disk w = Some t ->
    AuthWindowLifecycle.handle_reset ChatAppFlow.on_reset_requested w
    = (Ok FocusApiKey, set_form new_window (set_disk (Some (Db.delete_all t)) w))
    /\ Db.records
         (disk (snd (AuthWindowLifecycle.handle_reset ChatAppFlow.on_reset_requested w)))
       = []
    /\ fst (AuthManager.validate_pin q
              (snd (AuthWindowLifecycle.handle_reset ChatAppFlow.on_reset_requested w)))
       = Ok false.
Proof.
  intros w t q Hf Hd.
  assert (E : AuthWindowLifecycle.handle_reset ChatAppFlow.on_reset_requested w
              = (Ok FocusApiKey,
                 set_form new_window (set_disk (Some (Db.delete_all t)) w))).
  { unfold AuthWindowLifecycle.handle_reset, ChatAppFlow.on_reset_requested, bind.
    rewrite (clear_quiet w t Hf Hd).
    rewrite (show_auth_window_quiet _ (Db.delete_all t)); [ | exact Hf | reflexivity ].
    reflexivity. }
  rewrite E. split; [ reflexivity | ]. split; [ reflexivity | ].
  apply validate_none. reflexivity.
Qed.

Lemma reset_empties_the_store_witness :
  AuthWindowLifecycle.handle_reset ChatAppFlow.on_reset_requested returning
  = (Ok FocusApiKey,
     set_form new_window
       (set_disk (Some (Db.delete_all
                          (Db.mkTable [Db.mkRow 1 (text_of "sk-abc") (text_of "0042") 0%nat] 1)))
                 returning))
  /\ Db.records
       (disk (snd (AuthWindowLifecycle.handle_reset ChatAppFlow.on_reset_requested returning)))
     = []
  /\ fst (AuthManager.validate_pin (text_of "0042")
            (snd (AuthWindowLifecycle.handle_reset ChatAppFlow.on_reset_requested returning)))
     = Ok false.
Proof.
  apply (reset_empties_the_store returning
           (Db.mkTable [Db.mkRow 1 (text_of "sk-abc") (text_of "0042") 0%nat] 1)
           (text_of "0042")).
  - reflexivity.
  - reflexivity.
Defined.

Lemma clear_first_fault w m rest :
  faults w = Some m :: rest ->
  AuthManager.clear_credentials w
  = (Ok false, set_log (log w ++ [ClearFailed m]) (set_faults rest w)).
Proof.
  destruct w as [d f c e n l fm a]. cbn. intros ->. reflexivity.
Qed.

(** X11.  A reset that fails is not reported.  The callback of main.py
    ignores the result of [clear_credentials]: when the storage raises at
    the first call of the reset (and at none after it), the record stays
    on file, a new window is shown all the same, with the focus on the
    PIN field, and the old PIN is still the one that is accepted; only
    the log tells. *)
Theorem failed_reset_keeps_the_record :
  forall (m : string) (w : world) (s p : text),
    faults w = [Some m] ->
    stored_record (disk w) = Some (s, p) ->
    fst (AuthWindowLifecycle.handle_reset ChatAppFlow.on_reset_requested w) = Ok FocusPin
    /\ disk (snd (AuthWindowLifecycle.handle_reset ChatAppFlow.on_reset_requested w))
       = disk w
    /\ form (snd (AuthWindowLifecycle.handle_reset ChatAppFlow.on_reset_requested w))
       = new_window
    /\ log (snd (AuthWindowLifecycle.handle_reset ChatAppFlow.on_reset_requested w))
       = (log w ++ [ClearFailed m])%list
    /\ fst (AuthManager.validate_pin p
              (snd (AuthWindowLifecycle.handle_reset ChatAppFlow.on_reset_requested w)))
       = Ok true.
Proof.
  intros m w s p Hf Hs.
  destruct (disk w) as [t | ] eqn:Hd; [ | discriminate ].
  unfold AuthWindowLifecycle.handle_reset, ChatAppFlow.on_reset_requested, bind.
  rewrite (clear_first_fault w m [] Hf).
  rewrite (show_auth_window_quiet _ t); [ | reflexivity | exact Hd ].
  cbn [fst snd disk set_form set_log set_faults form log]. rewrite Hd, Hs.
  repeat split.
  rewrite (validate_quiet p _ s p); [ | reflexivity | cbn; rewrite Hd; exact Hs ].
  cbn [fst]. rewrite text_eqb_refl. reflexivity.
Qed.

Lemma failed_reset_keeps_the_record_witness :
  let w := set_faults [Some "database is locked"%string] returning in
  fst (AuthWindowLifecycle.handle_reset ChatAppFlow.on_reset_requested w) = Ok FocusPin
  /\ disk (snd (AuthWindowLifecycle.handle_reset ChatAppFlow.on_reset_requested w)) = disk w
  /\ form (snd (AuthWindowLifecycle.handle_reset ChatAppFlow.on_reset_requested w))
     = new_window
  /\ log (snd (AuthWindowLifecycle.handle_reset ChatAppFlow.on_reset_requested w))
     = (log w ++ [ClearFailed "database is locked"])%list
  /\ fst (AuthManager.validate_pin (text_of "0042")
            (snd (AuthWindowLifecycle.handle_reset ChatAppFlow.on_reset_requested w)))
     = Ok true.
Proof.
  intros w.
  apply (failed_reset_keeps_the_record "database is locked" w
           (text_of "sk-abc") (text_of "0042")).
  - reflexivity.
  - reflexivity.
Defined.



(** ** Every code is a PIN *)

Lemma isdigit_in_decimal_digits c :
  Py.isdigit c = true -> In c decimal_digits.
Proof.
  unfold Py.isdigit. intros H. apply andb_prop in H. destruct H as [H1 H2].
  apply N.leb_le in H1. apply N.leb_le in H2.
  assert (E : (c = 48 \/ c = 49 \/ c = 50 \/ c = 51 \/ c = 52
               \/ c = 53 \/ c = 54 \/ c = 55 \/ c = 56 \/ c = 57)%N) by lia.
  cbn. intuition.
Qed.

Lemma four_digits_in_codes a b c d :
  In a decimal_digits -> In b decimal_digits ->
  In c decimal_digits -> In d decimal_digits ->
  In [a; b; c; d] four_digit_codes.
Proof.
  intros Ha Hb Hc Hd. unfold four_digit_codes.
  apply in_flat_map. exists a. split; [ exact Ha | ].
  apply in_flat_map. exists b. split; [ exact Hb | ].
  apply in_flat_map. exists c. split; [ exact Hc | ].
  exact (in_map (fun d0 => [a; b; c; d0]) decimal_digits d Hd).
Qed.

Lemma every_code_is_drawn :
  forallb code_is_drawn four_digit_codes = true.
Proof. vm_compute. reflexivity. Qed.

(** X13.  Every string of four decimal digits is a PIN [generate_pin] can
    return, and it comes from exactly one draw of [0, 10000): the draw
    whose decimal value the string is.  So there are 10000 PINs, and each
    is as likely as its draw. *)
Theorem every_code_has_exactly_one_draw :
  forall (s : text) (w : world) (n : Z),
    List.length s = 4%nat ->
    forallb Py.isdigit s = true ->
    entropy w (drawn w) mod 10000 = Py.int_of_digits s ->
    0 <= n < 10000 ->
    Py.zfill 4 (Py.str n) = s ->
    0 <= Py.int_of_digits s < 10000
    /\ fst (AuthManager.generate_pin w) = Ok s
    /\ n = Py.int_of_digits s.
Proof.
  intros s w n Hlen Hdig Hdraw Hn Hpin.
  destruct s as [ | a [ | b [ | c [ | d [ | x s ] ] ] ] ]; try discriminate Hlen.
  cbn in Hdig.
  apply andb_prop in Hdig. destruct Hdig as [Ha Hdig].
  apply andb_prop in Hdig. destruct Hdig as [Hb Hdig].
  apply andb_prop in Hdig. destruct Hdig as [Hc Hdig].
  apply andb_prop in Hdig. destruct Hdig as [Hd _].
  pose proof every_code_is_drawn as A. rewrite forallb_forall in A.
  specialize (A [a; b; c; d]
                (four_digits_in_codes a b c d
                   (isdigit_in_decimal_digits a Ha) (isdigit_in_decimal_digits b Hb)
                   (isdigit_in_decimal_digits c Hc) (isdigit_in_decimal_digits d Hd))).
  unfold code_is_drawn in A.
  apply andb_prop in A. destruct A as [A Hhi].
  apply andb_prop in A. destruct A as [Hrt Hlo].
  apply text_eqb_eq in Hrt. apply Z.leb_le in Hlo. apply Z.ltb_lt in Hhi.
  split; [ lia | ]. split.
  - rewrite generate_pin_run. cbn [fst]. rewrite Hdraw, Hrt. reflexivity.
  - pose proof (pin_ok_below n Hn) as Hok. unfold pin_ok in Hok.
    apply andb_prop in Hok. destruct Hok as [_ Hval].
    apply Z.eqb_eq in Hval. rewrite Hpin in Hval. symmetry. exact Hval.
Qed.

Lemma every_code_has_exactly_one_draw_witness :
  0 <= Py.int_of_digits (text_of "0007") < 10000
  /\ fst (AuthManager.generate_pin returning) = Ok (text_of "0007")
  /\ 7 = Py.int_of_digits (text_of "0007").
Proof.
  apply (every_code_has_exactly_one_draw (text_of "0007") returning 7).
  - reflexivity.
  - reflexivity.
  - reflexivity.
  - lia.
  - reflexivity.
Defined.

(** ** Only the trimmed fields matter *)

Lemma type_in_key k q w : api_key_input (form (type_in k q w)) = k.
Proof. reflexivity. Qed.

Lemma type_in_pin k q w : pin_input (form (type_in k q w)) = q.
Proof. reflexivity. Qed.

(** The methods of [AuthManager] neither read nor write the two fields. *)
Lemma get_type_in k q w :
  AuthManager.get_credentials (type_in k q w)
  = (fst (AuthManager.get_credentials w),
     type_in k q (snd (AuthManager.get_credentials w))).
Proof.
  destruct w as [d f c e n l fm a]. unfold_py.
  destruct d as [t | ]; cbn; do 5 (try next_fault f); reflexivity.
Qed.

Lemma save_type_in key pin k q w :
  AuthManager.save_credentials key pin (type_in k q w)
  = (fst (AuthManager.save_credentials key pin w),
     type_in k q (snd (AuthManager.save_credentials key pin w))).
Proof.
  destruct w as [d f c e n l fm a]. unfold_py.
  destruct d as [t | ]; cbn; do 6 (try next_fault f);
    insert_cases key pin t;
    reflexivity.
Qed.

Lemma generate_type_in k q w :
  AuthManager.generate_pin (type_in k q w)
  = (Ok (next_pin w), type_in k q (set_drawn (S (drawn w)) w)).
Proof. reflexivity. Qed.

(** X14.  [handle_submit] looks at the two fields only through their
    trimmed values.  Two submissions whose API keys agree after [strip()]
    and whose PINs agree after [strip()] end the same way, whatever the
    storage does: same result, and the same world up to what is left in
    the two fields (same file, same status, same session, same log).  In
    particular white space around the key or the PIN changes nothing. *)
Theorem only_the_trimmed_fields_matter :
  forall (k q k' q' : text) (w : world),
    Py.strip k = Py.strip k' ->
    Py.strip q = Py.strip q' ->
    fst (submit ChatApp.on_auth_success k q w)
    = fst (submit ChatApp.on_auth_success k' q' w)
    /\ type_in [] [] (snd (submit ChatApp.on_auth_success k q w))
       = type_in [] [] (snd (submit ChatApp.on_auth_success k' q' w)).
Proof.
  intros k q k' q' w Hk Hq.
  unfold submit, bind at 1 3, modify.
  unfold AuthWindow.handle_submit, bind, read.
  rewrite !type_in_key, !type_in_pin, <- Hk, <- Hq.
  destruct (AuthWindow.is_empty (Py.strip k) && AuthWindow.is_empty (Py.strip q)).
  { split; reflexivity. }
  rewrite !get_type_in.
  destruct (get_frame w) as (r & w1 & E & _). rewrite E. cbn [fst snd].
  destruct r as [[s p] | ].
  - unfold AuthManager.validate_pin, bind. rewrite !get_type_in.
    destruct (get_frame w1) as (r2 & w2 & E2 & _). rewrite E2. cbn [fst snd].
    destruct r2 as [[s2 p2] | ]; [ destruct (text_eqb _ p2) | ];
      split; reflexivity.
  - destruct (AuthWindow.is_empty (Py.strip k)).
    { split; reflexivity. }
    unfold try_except. rewrite !generate_type_in, !save_type_in.
    destruct (save_frame (Py.strip k) (next_pin w1) (set_drawn (S (drawn w1)) w1))
      as (b & w3 & E3 & _).
    rewrite E3. cbn [fst snd].
    destruct b; split; reflexivity.
Qed.

Lemma only_the_trimmed_fields_matter_witness :
  fst (submit ChatApp.on_auth_success (text_of " sk-abc") (text_of "0042 ") returning)
  = fst (submit ChatApp.on_auth_success (text_of "sk-abc  ") (text_of "  0042") returning)
  /\ type_in [] []
       (snd (submit ChatApp.on_auth_success (text_of " sk-abc") (text_of "0042 ") returning))
     = type_in [] []
         (snd (submit ChatApp.on_auth_success (text_of "sk-abc  ") (text_of "  0042") returning)).
Proof.
  apply (only_the_trimmed_fields_matter
           (text_of " sk-abc") (text_of "0042 ") (text_of "sk-abc  ") (text_of "  0042")
           returning).
  - reflexivity.
  - reflexivity.
Defined.

(** * utils/notifications.py and utils/monitor.py *)

Example watching_first_sample :
  fst (PerformanceMonitor.get_metrics watching)
  = Ok (PerformanceMonitor.Metrics
          (PerformanceMonitor.mkMetrics 100%nat 12.5%float 30%float 8 100%float)).
Proof. reflexivity. Qed.

Example watching_second_health :
  fst (PerformanceMonitor.check_health (snd (PerformanceMonitor.get_metrics watching)))
  = Ok (PerformanceMonitor.Health PerformanceMonitor.warning
          [PerformanceMonitor.HighCpu 93%float; PerformanceMonitor.HighThreads 64]
          200%nat).
Proof. reflexivity. Qed.

Example replace_prefix_and_dollar :
  Py.strip (str_replace PerformanceMonitor.dollar []
              (str_replace PerformanceMonitor.balance_prefix []
                 (PerformanceMonitor.balance_prefix ++ text_of "$12.50 $")))
  = text_of "12.50".
Proof. reflexivity. Qed.

Example replace_empty_old : str_replace [] (text_of "-") (text_of "ab") = text_of "-a-b-".
Proof. reflexivity. Qed.

Ltac unfold_eff :=
  unfold notifications.send_low_balance_alert, notifications.send_email_notification,
    notifications.send_telegram_notification, notifications.logger_write,
    notifications.smtp_call, notifications.telegram_call,
    eff_try, eff_bind, eff_ret, eff_raise, eff_modify, eff_read, eff_on in *.

(** X15.  [send_low_balance_alert] never raises and tries both channels on
    their own: the e-mail reaches the administrator exactly when the first
    four calls to the mail server succeed, the Telegram message exactly
    when the two calls to Telegram succeed, and neither depends on the
    other; a mail failure does not stop the Telegram message. *)
Theorem alert_tries_both_channels :
  forall (balance threshold : float) (o : notifications.outside),
    fst (notifications.send_low_balance_alert balance threshold o) = Ok tt
    /\ notifications.mailbox (snd (notifications.send_low_balance_alert balance threshold o))
       = (if no_fault_in 4 (notifications.smtp_faults o)
          then notifications.mailbox o
               ++ [(notifications.LowBalanceSubject balance threshold,
                    notifications.LowBalanceBody balance threshold)]
          else notifications.mailbox o)%list
    /\ notifications.chat (snd (notifications.send_low_balance_alert balance threshold o))
       = (if no_fault_in 2 (notifications.telegram_faults o)
          then notifications.chat o ++ [notifications.LowBalanceBody balance threshold]
          else notifications.chat o)%list.
Proof.
  intros b th [sf tf mb ch lg]. unfold_eff. cbn.
  do 5 (try (destruct sf as [ | [ ? | ] sf ]; cbn));
    do 2 (try (destruct tf as [ | [ ? | ] tf ]; cbn));
    repeat split.
Qed.

(** ** The history of samples *)

Lemma remember_length m h :
  (List.length h <= 1000)%nat ->
  (List.length (PerformanceMonitor.remember m h) <= 1000)%nat.
Proof.
  intros H. unfold PerformanceMonitor.remember.
  destruct (1000 <? Z.of_nat (List.length (h ++ [m]))) eqn:E.
  - destruct h as [ | x h ]; cbn in *; [ lia | ].
    rewrite length_app. cbn. lia.
  - apply Z.ltb_ge in E. lia.
Qed.

Lemma get_metrics_cases s :
  (exists m,
      PerformanceMonitor.get_metrics s
      = (Ok (PerformanceMonitor.Metrics m),
         PerformanceMonitor.set_self
           (PerformanceMonitor.mkMonitor
              (PerformanceMonitor.start_time (PerformanceMonitor.self s))
              (PerformanceMonitor.remember m (history s))
              (PerformanceMonitor.last_balance_notification (PerformanceMonitor.self s))
              (PerformanceMonitor.app_ref (PerformanceMonitor.self s)))
           (probe_taken s))
      /\ first_failure (next_probe s) = None)
  \/ (exists msg,
        PerformanceMonitor.get_metrics s
        = (Ok (PerformanceMonitor.MetricsError msg
                 (PerformanceMonitor.seen_now_on_error (next_probe s))),
           probe_taken s)
        /\ first_failure (next_probe s) = Some msg).
Proof.
  unfold PerformanceMonitor.get_metrics, first_failure, next_probe.
  unfold eff_try, eff_bind, eff_read, eff_modify, eff_ret, eff_raise,
    PerformanceMonitor.from_reading.
  destruct (PerformanceMonitor.seen_cpu _) as [c | e1];
    [ | right; eexists; split; reflexivity ].
  destruct (PerformanceMonitor.seen_memory _) as [m | e2];
    [ | right; eexists; split; reflexivity ].
  destruct (PerformanceMonitor.seen_threads _) as [n | e3];
    [ | right; eexists; split; reflexivity ].
  left. eexists. split; reflexivity.
Qed.

(** X16.  The history never holds more than 1000 samples: starting from a
    history within the bound (a new monitor has none), any number of calls
    of [get_metrics], with probes that work or fail in any pattern, leaves
    it within the bound; the calls never raise and each takes one probe. *)
Theorem history_stays_within_a_thousand :
  forall (n : nat) (s : PerformanceMonitor.state),
    (List.length (history s) <= 1000)%nat ->
    fst (sample n s) = Ok tt
    /\ (List.length (history (snd (sample n s))) <= 1000)%nat
    /\ PerformanceMonitor.probed (PerformanceMonitor.env (snd (sample n s)))
       = (PerformanceMonitor.probed (PerformanceMonitor.env s) + n)%nat.
Proof.
  induction n as [ | n IH ]; intros s H; cbn [sample].
  - cbn. repeat split; [ exact H | lia ].
  - unfold eff_bind.
    destruct (get_metrics_cases s) as [(m & E & _) | (msg & E & _)]; rewrite E.
    + destruct (IH (PerformanceMonitor.set_self
                      (PerformanceMonitor.mkMonitor
                         (PerformanceMonitor.start_time (PerformanceMonitor.self s))
                         (PerformanceMonitor.remember m (history s))
                         (PerformanceMonitor.last_balance_notification
                            (PerformanceMonitor.self s))
                         (PerformanceMonitor.app_ref (PerformanceMonitor.self s)))
                      (probe_taken s))) as (A & B & C).
      { cbn. apply remember_length, H. }
      rewrite A, C. repeat split; [ exact B | cbn; lia ].
    + destruct (IH (probe_taken s)) as (A & B & C); [ exact H | ].
      rewrite A, C. repeat split; [ exact B | cbn; lia ].
Qed.

Lemma history_stays_within_a_thousand_witness :
  fst (sample 5 watching) = Ok tt
  /\ (List.length (history (snd (sample 5 watching))) <= 1000)%nat
  /\ PerformanceMonitor.probed (PerformanceMonitor.env (snd (sample 5 watching)))
     = (PerformanceMonitor.probed (PerformanceMonitor.env watching) + 5)%nat.
Proof.
  apply (history_stays_within_a_thousand 5 watching).
  cbn. lia.
Defined.

(** X17.  When the three readings succeed, [get_metrics] returns the
    sample built from them (uptime: the time read minus the start time)
    and puts it at the end of the history; below 1000 samples nothing is
    dropped, at 1000 the oldest sample is. *)
Theorem new_sample_replaces_the_oldest :
  forall (s : PerformanceMonitor.state) (c m : float) (n : nat),
    PerformanceMonitor.seen_cpu (next_probe s) = PerformanceMonitor.Reads c ->
    PerformanceMonitor.seen_memory (next_probe s) = PerformanceMonitor.Reads m ->
    PerformanceMonitor.seen_threads (next_probe s) = PerformanceMonitor.Reads n ->
    (List.length (history s) <= 1000)%nat ->
    fst (PerformanceMonitor.get_metrics s)
    = Ok (PerformanceMonitor.Metrics
            (PerformanceMonitor.mkMetrics
               (PerformanceMonitor.seen_now (next_probe s)) c m (Z.of_nat n)
               (PrimFloat.sub (PerformanceMonitor.seen_time (next_probe s))
                              (PerformanceMonitor.start_time (PerformanceMonitor.self s)))))
    /\ history (snd (PerformanceMonitor.get_metrics s))
       = ((if Nat.ltb (List.length (history s)) 1000 then history s else tl (history s))
          ++ [PerformanceMonitor.mkMetrics
                (PerformanceMonitor.seen_now (next_probe s)) c m (Z.of_nat n)
                (PrimFloat.sub (PerformanceMonitor.seen_time (next_probe s))
                               (PerformanceMonitor.start_time (PerformanceMonitor.self s)))])%list.
Proof.
  intros s c m n Hc Hm Hn Hlen.
  unfold PerformanceMonitor.get_metrics.
  unfold eff_try, eff_bind, eff_read, eff_modify, eff_ret, eff_raise.
  change (PerformanceMonitor.system (PerformanceMonitor.env s)
            (PerformanceMonitor.probed (PerformanceMonitor.env s)))
    with (next_probe s).
  rewrite Hc, Hm, Hn. cbn -[Nat.ltb PerformanceMonitor.remember].
  split; [ reflexivity | ].
  unfold PerformanceMonitor.remember. fold (history s).
  rewrite length_app. cbn [List.length].
  destruct (Nat.ltb_spec (List.length (history s)) 1000) as [Hlt | Hge].
  - destruct (Z.ltb_spec 1000 (Z.of_nat (List.length (history s) + 1))) as [Hbad | _];
      [ lia | reflexivity ].
  - destruct (Z.ltb_spec 1000 (Z.of_nat (List.length (history s) + 1))) as [_ | Hbad];
      [ | lia ].
    destruct (history s) as [ | x h ]; [ cbn in Hge; lia | reflexivity ].
Qed.

Lemma new_sample_replaces_the_oldest_witness :
  fst (PerformanceMonitor.get_metrics watching)
  = Ok (PerformanceMonitor.Metrics
          (PerformanceMonitor.mkMetrics
             (PerformanceMonitor.seen_now (next_probe watching)) 12.5%float 30%float
             (Z.of_nat 8)
             (PrimFloat.sub (PerformanceMonitor.seen_time (next_probe watching))
                            (PerformanceMonitor.start_time (PerformanceMonitor.self watching)))))
  /\ history (snd (PerformanceMonitor.get_metrics watching))
     = ((if Nat.ltb (List.length (history watching)) 1000
         then history watching else tl (history watching))
        ++ [PerformanceMonitor.mkMetrics
              (PerformanceMonitor.seen_now (next_probe watching)) 12.5%float 30%float
              (Z.of_nat 8)
              (PrimFloat.sub (PerformanceMonitor.seen_time (next_probe watching))
                             (PerformanceMonitor.start_time (PerformanceMonitor.self watching)))])%list.
Proof.
  apply (new_sample_replaces_the_oldest watching 12.5%float 30%float 8%nat).
  - reflexivity.
  - reflexivity.
  - reflexivity.
  - cbn. lia.
Defined.

(** X18.  When a reading fails, [get_metrics] does not raise: it returns
    the dict with the key 'error', carrying the message of the first
    reading that failed, and leaves the history as it was; [check_health]
    on such a probe returns the status 'error' with the same message. *)
Theorem failed_reading_gives_the_error_dict :
  forall (s : PerformanceMonitor.state) (msg : string),
    first_failure (next_probe s) = Some msg ->
    PerformanceMonitor.get_metrics s
    = (Ok (PerformanceMonitor.MetricsError msg
             (PerformanceMonitor.seen_now_on_error (next_probe s))),
       probe_taken s)
    /\ PerformanceMonitor.check_health s
       = (Ok (PerformanceMonitor.HealthError msg), probe_taken s)
    /\ history (probe_taken s) = history s.
Proof.
  intros s msg H.
  destruct (get_metrics_cases s) as [(m & E & Hnone) | (msg' & E & Hsome)].
  - rewrite H in Hnone. discriminate.
  - rewrite H in Hsome. injection Hsome as <-.
    split; [ exact E | ].
    unfold PerformanceMonitor.check_health, eff_bind. rewrite E.
    split; reflexivity.
Qed.

Lemma failed_reading_gives_the_error_dict_witness :
  let s := snd (sample 2 watching) in
  PerformanceMonitor.get_metrics s
  = (Ok (PerformanceMonitor.MetricsError "process no longer exists"
           (PerformanceMonitor.seen_now_on_error (next_probe s))),
     probe_taken s)
  /\ PerformanceMonitor.check_health s
     = (Ok (PerformanceMonitor.HealthError "process no longer exists"), probe_taken s)
  /\ history (probe_taken s) = history s.
Proof.
  intros s.
  apply (failed_reading_gives_the_error_dict s "process no longer exists").
  reflexivity.
Defined.

(** ** The health report *)

Lemma health_status_follows_the_warnings_aux s m s' :
  PerformanceMonitor.get_metrics s = (Ok (PerformanceMonitor.Metrics m), s') ->
  PerformanceMonitor.check_health s
  = (Ok (PerformanceMonitor.Health
           (match warnings_of m with
            | [] => PerformanceMonitor.healthy
            | _ :: _ => PerformanceMonitor.warning
            end)
           (warnings_of m) (PerformanceMonitor.timestamp m)),
     s').
Proof.
  intros H. unfold PerformanceMonitor.check_health, eff_bind. rewrite H.
  unfold warnings_of, eff_ret.
  destruct (PrimFloat.ltb _ (PerformanceMonitor.cpu_percent m));
    destruct (PrimFloat.ltb _ (PerformanceMonitor.memory_percent m));
    destruct (PerformanceMonitor.thread_threshold <? PerformanceMonitor.thread_count m);
    reflexivity.
Qed.

(** X19.  On a sample, [check_health] reports the warnings of exactly the
    thresholds the sample exceeds strictly (CPU above 80.0, memory above
    75.0, more than 50 threads), in that order, and the status is
    'warning' exactly when there is a warning, 'healthy' otherwise; a
    value equal to its threshold raises none.  The check takes a sample of
    its own: it leaves the state [get_metrics] would leave. *)
Theorem health_status_follows_the_warnings :
  forall (s : PerformanceMonitor.state) (m : PerformanceMonitor.metrics),
    fst (PerformanceMonitor.get_metrics s) = Ok (PerformanceMonitor.Metrics m) ->
    PerformanceMonitor.check_health s
    = (Ok (PerformanceMonitor.Health
             (match warnings_of m with
              | [] => PerformanceMonitor.healthy
              | _ :: _ => PerformanceMonitor.warning
              end)
             (warnings_of m) (PerformanceMonitor.timestamp m)),
       snd (PerformanceMonitor.get_metrics s)).
Proof.
  intros s m H. unfold PerformanceMonitor.check_health, eff_bind.
  destruct (PerformanceMonitor.get_metrics s) as [r s']. cbn in H. subst r.
  unfold warnings_of, eff_ret. cbn [fst snd].
  destruct (PrimFloat.ltb _ (PerformanceMonitor.cpu_percent m));
    destruct (PrimFloat.ltb _ (PerformanceMonitor.memory_percent m));
    destruct (PerformanceMonitor.thread_threshold <? PerformanceMonitor.thread_count m);
    reflexivity.
Qed.

Lemma health_status_follows_the_warnings_witness :
  PerformanceMonitor.check_health at_the_thresholds
  = (Ok (PerformanceMonitor.Health PerformanceMonitor.healthy [] 400%nat),
     snd (PerformanceMonitor.get_metrics at_the_thresholds)).
Proof.
  exact (health_status_follows_the_warnings at_the_thresholds
           (PerformanceMonitor.mkMetrics 400%nat 80%float 75%float 50 3100%float)
           eq_refl).
Defined.

Lemma log_warnings_run ws s :
  PerformanceMonitor.log_warnings ws s
  = (Ok tt,
     with_logged (PerformanceMonitor.logged s
                  ++ map PerformanceMonitor.WarnPerformance ws)%list s).
Proof.
  revert s. induction ws as [ | w ws IH ]; intros s; cbn [PerformanceMonitor.log_warnings map].
  - unfold eff_ret, with_logged. rewrite app_nil_r. destruct s; reflexivity.
  - unfold eff_bind, PerformanceMonitor.logger_write, eff_modify. rewrite IH.
    unfold with_logged. cbn. rewrite <- app_assoc. reflexivity.
Qed.

(** X20.  [log_metrics] takes two samples, one through [get_metrics] and
    one through [check_health]: when both probes work, the history gets
    both samples, the metrics line in the log is that of the first and
    the warnings logged after it are those of the second. *)
Theorem log_metrics_takes_two_samples :
  forall (s s1 s2 : PerformanceMonitor.state) (m1 m2 : PerformanceMonitor.metrics),
    PerformanceMonitor.get_metrics s = (Ok (PerformanceMonitor.Metrics m1), s1) ->
    PerformanceMonitor.get_metrics s1 = (Ok (PerformanceMonitor.Metrics m2), s2) ->
    PerformanceMonitor.log_metrics s
    = (Ok tt,
       with_logged (PerformanceMonitor.logged s
                    ++ PerformanceMonitor.InfoMetrics m1
                       :: map PerformanceMonitor.WarnPerformance (warnings_of m2))%list
                   s2)
    /\ PerformanceMonitor.probed (PerformanceMonitor.env s2)
       = (PerformanceMonitor.probed (PerformanceMonitor.env s) + 2)%nat.
Proof.
  intros s s1 s2 m1 m2 H1 H2.
  assert (E1 : s1 = PerformanceMonitor.set_self
                      (PerformanceMonitor.mkMonitor
                         (PerformanceMonitor.start_time (PerformanceMonitor.self s))
                         (PerformanceMonitor.remember m1 (history s))
                         (PerformanceMonitor.last_balance_notification
                            (PerformanceMonitor.self s))
                         (PerformanceMonitor.app_ref (PerformanceMonitor.self s)))
                      (probe_taken s)).
  { destruct (get_metrics_cases s) as [(m & E & _) | (msg & E & _)];
      rewrite E in H1; [ | discriminate ].
    injection H1 as <- <-. reflexivity. }
  assert (E2 : s2 = PerformanceMonitor.set_self
                      (PerformanceMonitor.mkMonitor
                         (PerformanceMonitor.start_time (PerformanceMonitor.self s1))
                         (PerformanceMonitor.remember m2 (history s1))
                         (PerformanceMonitor.last_balance_notification
                            (PerformanceMonitor.self s1))
                         (PerformanceMonitor.app_ref (PerformanceMonitor.self s1)))
                      (probe_taken s1)).
  { destruct (get_metrics_cases s1) as [(m & E & _) | (msg & E & _)];
      rewrite E in H2; [ | discriminate ].
    injection H2 as <- <-. reflexivity. }
  split.
  - unfold PerformanceMonitor.log_metrics, eff_bind at 1. rewrite H1.
    unfold eff_bind at 1.
    rewrite (health_status_follows_the_warnings_aux s1 m2 s2 H2).
    unfold eff_bind, PerformanceMonitor.logger_write, eff_modify.
    destruct (warnings_of m2) as [ | w ws ] eqn:Ew.
    + unfold eff_ret, with_logged. cbn. subst s2 s1. reflexivity.
    + rewrite log_warnings_run. unfold with_logged. cbn.
      rewrite <- app_assoc. subst s2 s1. reflexivity.
  - subst s2 s1. cbn. lia.
Qed.

Lemma log_metrics_takes_two_samples_witness :
  let m1 := PerformanceMonitor.mkMetrics 100%nat 12.5%float 30%float 8 100%float in
  let m2 := PerformanceMonitor.mkMetrics 200%nat 93%float 60%float 64 1100%float in
  PerformanceMonitor.log_metrics watching
  = (Ok tt,
     with_logged (PerformanceMonitor.logged watching
                  ++ PerformanceMonitor.InfoMetrics m1
                     :: map PerformanceMonitor.WarnPerformance (warnings_of m2))%list
                 (snd (sample 2 watching)))
  /\ PerformanceMonitor.probed (PerformanceMonitor.env (snd (sample 2 watching)))
     = (PerformanceMonitor.probed (PerformanceMonitor.env watching) + 2)%nat.
Proof.
  intros m1 m2.
  apply (log_metrics_takes_two_samples watching
           (snd (PerformanceMonitor.get_metrics watching)) (snd (sample 2 watching)) m1 m2).
  - reflexivity.
  - reflexivity.
Defined.

(** ** The balance check *)

Lemma alert_returns balance threshold o :
  exists o', notifications.send_low_balance_alert balance threshold o = (Ok tt, o').
Proof.
  destruct o as [sf tf mb ch lg]. unfold_eff. cbn.
  do 5 (try (destruct sf as [ | [ ? | ] sf ]; cbn));
    do 2 (try (destruct tf as [ | [ ? | ] tf ]; cbn));
    eexists; reflexivity.
Qed.

Section Balance.

Variable float_of_str : text -> option float.

Lemma balance_of_number s x :
  has_client s = true ->
  PerformanceMonitor.api_reply (PerformanceMonitor.env s) = PerformanceMonitor.ReplyNumber x ->
  PerformanceMonitor.get_current_balance float_of_str s = (Ok x, s).
Proof.
  unfold has_client, PerformanceMonitor.get_current_balance,
    PerformanceMonitor.get_balance, eff_try, eff_bind, eff_read, eff_ret.
  destruct (PerformanceMonitor.app_ref _) as [a | ]; [ | discriminate ].
  destruct (api_client a); [ | discriminate ].
  intros _ ->. reflexivity.
Qed.

Lemma check_when_low s x :
  PerformanceMonitor.get_current_balance float_of_str s = (Ok x, s) ->
  PrimFloat.ltb x PerformanceMonitor.balance_threshold = true ->
  PerformanceMonitor.check_balance_and_notify float_of_str s
  = (Ok tt,
     if in_cooldown s
     then with_logged (PerformanceMonitor.logged s
                       ++ [PerformanceMonitor.InfoCurrentBalance x;
                           PerformanceMonitor.InfoCooldownActive;
                           PerformanceMonitor.InfoNotificationSkipped])%list s
     else alerted x s).
Proof.
  intros Hb Hlow.
  destruct (alert_returns x PerformanceMonitor.balance_threshold (PerformanceMonitor.net s))
    as (o' & Eo).
  unfold alerted, in_cooldown. rewrite Eo.
  destruct s as [[st h last app_] e o lg].
  unfold PerformanceMonitor.check_balance_and_notify, eff_try.
  unfold eff_bind at 1. rewrite Hb.
  unfold eff_bind at 1. unfold PerformanceMonitor.logger_write at 1. unfold eff_modify at 1.
  rewrite Hlow.
  unfold eff_bind, eff_read, eff_modify, eff_ret, eff_on,
    PerformanceMonitor.logger_write, with_logged.
  cbn [PerformanceMonitor.self PerformanceMonitor.env PerformanceMonitor.net
       PerformanceMonitor.logged PerformanceMonitor.last_balance_notification
       PerformanceMonitor.start_time PerformanceMonitor.metrics_history
       PerformanceMonitor.app_ref PerformanceMonitor.set_self PerformanceMonitor.set_net
       fst snd] in *.
  destruct last as [t | ].
  - destruct (PerformanceMonitor.truthy t); cbn [andb].
    + destruct (PrimFloat.ltb _ PerformanceMonitor.notification_cooldown).
      * cbn. rewrite <- !app_assoc. reflexivity.
      * cbn. rewrite Eo. cbn. rewrite <- !app_assoc. reflexivity.
    + cbn. rewrite Eo. cbn. rewrite <- !app_assoc. reflexivity.
  - cbn. rewrite Eo. cbn. rewrite <- !app_assoc. reflexivity.
Qed.

End Balance.

(** X21.  An error while reading the balance never yields the 0.0 the
    handler of [get_current_balance] means to return.  The handler calls
    [logging.error], and monitor.py does not import [logging]: when the
    API client raises, or returns a text [float()] rejects, the method
    raises "name 'logging' is not defined".  [check_balance_and_notify]
    catches it, logs "Error checking balance" with that message and does
    nothing else: no notification, no change of the monitor. *)
Theorem balance_errors_surface_as_name_errors :
  forall (float_of_str : text -> option float) (s : PerformanceMonitor.state)
         (msg : string) (reply : text),
    has_client s = true ->
    PerformanceMonitor.api_reply (PerformanceMonitor.env s) = PerformanceMonitor.ReplyRaises msg
    \/ (PerformanceMonitor.api_reply (PerformanceMonitor.env s)
        = PerformanceMonitor.ReplyText reply
        /\ float_of_str (balance_text reply) = None) ->
    PerformanceMonitor.get_current_balance float_of_str s
    = (Raise (Exception "name 'logging' is not defined"), s)
    /\ PerformanceMonitor.check_balance_and_notify float_of_str s
       = (Ok tt,
          with_logged (PerformanceMonitor.logged s
                       ++ [PerformanceMonitor.ErrorCheckingBalance
                             "name 'logging' is not defined"])%list s).
Proof.
  intros f s msg reply Hc Hr.
  assert (E : PerformanceMonitor.get_current_balance f s
              = (Raise (Exception "name 'logging' is not defined"), s)).
  { unfold has_client in Hc.
    unfold PerformanceMonitor.get_current_balance, PerformanceMonitor.get_balance,
      PerformanceMonitor.logging_error, eff_try, eff_bind, eff_read, eff_ret, eff_raise.
    destruct (PerformanceMonitor.app_ref _) as [a | ]; [ | discriminate ].
    destruct (api_client a); [ | discriminate ].
    destruct Hr as [-> | [-> Hf]]; [ reflexivity | ].
    unfold balance_text in Hf. rewrite Hf. reflexivity. }
  split; [ exact E | ].
  unfold PerformanceMonitor.check_balance_and_notify, eff_try, eff_bind at 1.
  rewrite E. destruct s; reflexivity.
Qed.

Lemma balance_errors_surface_as_name_errors_witness :
  PerformanceMonitor.get_current_balance no_float client_down
  = (Raise (Exception "name 'logging' is not defined"), client_down)
  /\ PerformanceMonitor.check_balance_and_notify no_float client_down
     = (Ok tt,
        with_logged (PerformanceMonitor.logged client_down
                     ++ [PerformanceMonitor.ErrorCheckingBalance
                           "name 'logging' is not defined"])%list client_down).
Proof.
  apply (balance_errors_surface_as_name_errors no_float client_down "HTTP 503" []).
  - reflexivity.
  - left. reflexivity.
Defined.

(** X22.  A monitor whose application has no API client (or that has no
    application) reads the balance as 0.0, which is below the threshold:
    outside the cooldown, [check_balance_and_notify] then sends the
    low-balance alert for a balance of 0.0. *)
Theorem missing_client_counts_as_empty_balance :
  forall (float_of_str : text -> option float) (s : PerformanceMonitor.state),
    has_client s = false ->
    in_cooldown s = false ->
    PerformanceMonitor.get_current_balance float_of_str s = (Ok 0%float, s)
    /\ PerformanceMonitor.check_balance_and_notify float_of_str s
       = (Ok tt, alerted 0%float s).
Proof.
  intros f s Hc Hcd.
  assert (E : PerformanceMonitor.get_current_balance f s = (Ok 0%float, s)).
  { unfold has_client in Hc.
    unfold PerformanceMonitor.get_current_balance, eff_bind, eff_read, eff_ret.
    destruct (PerformanceMonitor.app_ref _) as [a | ]; [ | reflexivity ].
    destruct (api_client a); [ discriminate | reflexivity ]. }
  split; [ exact E | ].
  rewrite (check_when_low f s 0%float E eq_refl), Hcd. reflexivity.
Qed.

Lemma missing_client_counts_as_empty_balance_witness :
  PerformanceMonitor.get_current_balance no_float no_client = (Ok 0%float, no_client)
  /\ PerformanceMonitor.check_balance_and_notify no_float no_client
     = (Ok tt, alerted 0%float no_client).
Proof.
  apply (missing_client_counts_as_empty_balance no_float no_client).
  - reflexivity.
  - reflexivity.
Defined.

(** X23.  A balance that is not below 1.0 (1.0 itself, anything above,
    and a NaN) is only logged: "current balance", then "sufficient";
    nothing is sent and the monitor does not change. *)
Theorem sufficient_balance_is_only_logged :
  forall (float_of_str : text -> option float) (s : PerformanceMonitor.state) (x : float),
    has_client s = true ->
    PerformanceMonitor.api_reply (PerformanceMonitor.env s) = PerformanceMonitor.ReplyNumber x ->
    PrimFloat.ltb x PerformanceMonitor.balance_threshold = false ->
    PerformanceMonitor.check_balance_and_notify float_of_str s
    = (Ok tt,
       with_logged (PerformanceMonitor.logged s
                    ++ [PerformanceMonitor.InfoCurrentBalance x;
                        PerformanceMonitor.InfoBalanceSufficient])%list s).
Proof.
  intros f s x Hc Hr Hx.
  unfold PerformanceMonitor.check_balance_and_notify, eff_try, eff_bind at 1.
  rewrite (balance_of_number f s x Hc Hr).
  unfold eff_bind, PerformanceMonitor.logger_write, eff_modify. rewrite Hx.
  unfold with_logged. cbn. rewrite <- app_assoc. reflexivity.
Qed.

Lemma sufficient_balance_is_only_logged_witness :
  PerformanceMonitor.check_balance_and_notify no_float topped_up
  = (Ok tt,
     with_logged (PerformanceMonitor.logged topped_up
                  ++ [PerformanceMonitor.InfoCurrentBalance 1%float;
                      PerformanceMonitor.InfoBalanceSufficient])%list topped_up).
Proof.
  apply (sufficient_balance_is_only_logged no_float topped_up 1%float).
  - reflexivity.
  - reflexivity.
  - reflexivity.
Defined.

(** X24.  Outside the cooldown, a balance below 1.0 makes
    [check_balance_and_notify] send the alert, note the time of the clock
    as the time of the last notification and log "notification sent",
    whatever became of the alert: when the mail server and Telegram both
    refuse, nothing reaches the administrator and the cooldown starts all
    the same. *)
Theorem undelivered_alert_still_starts_the_cooldown :
  forall (float_of_str : text -> option float) (s : PerformanceMonitor.state) (x : float),
    has_client s = true ->
    PerformanceMonitor.api_reply (PerformanceMonitor.env s) = PerformanceMonitor.ReplyNumber x ->
    PrimFloat.ltb x PerformanceMonitor.balance_threshold = true ->
    in_cooldown s = false ->
    no_fault_in 4 (notifications.smtp_faults (PerformanceMonitor.net s)) = false ->
    no_fault_in 2 (notifications.telegram_faults (PerformanceMonitor.net s)) = false ->
    PerformanceMonitor.check_balance_and_notify float_of_str s = (Ok tt, alerted x s)
    /\ PerformanceMonitor.last_balance_notification (PerformanceMonitor.self (alerted x s))
       = Some (PerformanceMonitor.wall_clock (PerformanceMonitor.env s))
    /\ notifications.mailbox (PerformanceMonitor.net (alerted x s))
       = notifications.mailbox (PerformanceMonitor.net s)
    /\ notifications.chat (PerformanceMonitor.net (alerted x s))
       = notifications.chat (PerformanceMonitor.net s).
Proof.
  intros f s x Hc Hr Hx Hcd Hs Ht.
  rewrite (check_when_low f s x (balance_of_number f s x Hc Hr) Hx), Hcd.
  split; [ reflexivity | ]. split; [ reflexivity | ].
  unfold alerted. cbn [PerformanceMonitor.net].
  destruct (PerformanceMonitor.net s) as [sf tf mb ch lg].
  cbn [notifications.smtp_faults notifications.telegram_faults] in Hs, Ht.
  unfold no_fault_in in Hs, Ht. unfold_eff. cbn.
  do 5 (try (destruct sf as [ | [ ? | ] sf ]; cbn in Hs |- *; try discriminate Hs));
    do 2 (try (destruct tf as [ | [ ? | ] tf ]; cbn in Ht |- *; try discriminate Ht));
    split; reflexivity.
Qed.

Lemma undelivered_alert_still_starts_the_cooldown_witness :
  PerformanceMonitor.check_balance_and_notify no_float unreachable
  = (Ok tt, alerted 0.25%float unreachable)
  /\ PerformanceMonitor.last_balance_notification
       (PerformanceMonitor.self (alerted 0.25%float unreachable))
     = Some (PerformanceMonitor.wall_clock (PerformanceMonitor.env unreachable))
  /\ notifications.mailbox (PerformanceMonitor.net (alerted 0.25%float unreachable))
     = notifications.mailbox (PerformanceMonitor.net unreachable)
  /\ notifications.chat (PerformanceMonitor.net (alerted 0.25%float unreachable))
     = notifications.chat (PerformanceMonitor.net unreachable).
Proof.
  apply (undelivered_alert_still_starts_the_cooldown no_float unreachable 0.25%float).
  - reflexivity.
  - reflexivity.
  - reflexivity.
  - reflexivity.
  - reflexivity.
  - reflexivity.
Defined.

(** X25.  After an alert, checks within the cooldown send nothing.  If
    [check_balance_and_notify] has sent an alert at a time that is not
    0.0, a check at a later time, less than 3600 seconds after it, with
    the balance still low, only logs "cooldown active" and "notification
    skipped": mailbox, Telegram chat and the monitor stay as the alert
    left them. *)
Theorem no_second_alert_within_the_hour :
  forall (float_of_str : text -> option float) (s : PerformanceMonitor.state)
         (x t1 : float),
    has_client s = true ->
    PerformanceMonitor.api_reply (PerformanceMonitor.env s) = PerformanceMonitor.ReplyNumber x ->
    PrimFloat.ltb x PerformanceMonitor.balance_threshold = true ->
    in_cooldown s = false ->
    PerformanceMonitor.truthy (PerformanceMonitor.wall_clock (PerformanceMonitor.env s)) = true ->
    PrimFloat.ltb (PrimFloat.sub t1 (PerformanceMonitor.wall_clock (PerformanceMonitor.env s)))
                  PerformanceMonitor.notification_cooldown = true ->
    PerformanceMonitor.check_balance_and_notify float_of_str s = (Ok tt, alerted x s)
    /\ PerformanceMonitor.check_balance_and_notify float_of_str (at_time t1 (alerted x s))
       = (Ok tt,
          with_logged (PerformanceMonitor.logged (alerted x s)
                       ++ [PerformanceMonitor.InfoCurrentBalance x;
                           PerformanceMonitor.InfoCooldownActive;
                           PerformanceMonitor.InfoNotificationSkipped])%list
                      (at_time t1 (alerted x s))).
Proof.
  intros f s x t1 Hc Hr Hx Hcd Htruthy Hsoon.
  split.
  { rewrite (check_when_low f s x (balance_of_number f s x Hc Hr) Hx), Hcd. reflexivity. }
  assert (Hc' : has_client (at_time t1 (alerted x s)) = true) by exact Hc.
  assert (Hr' : PerformanceMonitor.api_reply (PerformanceMonitor.env (at_time t1 (alerted x s)))
                = PerformanceMonitor.ReplyNumber x) by exact Hr.
  rewrite (check_when_low f _ x (balance_of_number f _ x Hc' Hr') Hx).
  unfold in_cooldown.
  cbn [at_time alerted PerformanceMonitor.self PerformanceMonitor.env
       PerformanceMonitor.set_env PerformanceMonitor.last_balance_notification
       PerformanceMonitor.wall_clock].
  rewrite Htruthy, Hsoon. reflexivity.
Qed.

Lemma no_second_alert_within_the_hour_witness :
  PerformanceMonitor.check_balance_and_notify no_float watching
  = (Ok tt, alerted 0.25%float watching)
  /\ PerformanceMonitor.check_balance_and_notify no_float
       (at_time 6000%float (alerted 0.25%float watching))
     = (Ok tt,
        with_logged (PerformanceMonitor.logged (alerted 0.25%float watching)
                     ++ [PerformanceMonitor.InfoCurrentBalance 0.25%float;
                         PerformanceMonitor.InfoCooldownActive;
                         PerformanceMonitor.InfoNotificationSkipped])%list
                    (at_time 6000%float (alerted 0.25%float watching))).
Proof.
  apply (no_second_alert_within_the_hour no_float watching 0.25%float 6000%float).
  - reflexivity.
  - reflexivity.
  - reflexivity.
  - reflexivity.
  - reflexivity.
  - reflexivity.
Defined.
